(** * Webhook handler of the WhatsApp Business wrapper

    A shallow embedding of [WebhookHandler] (handshake check, signature
    validation, first-event extraction) together with the parts of the
    JavaScript runtime it relies on: property access and truthiness on
    parsed JSON, [String.prototype.split], UTF-8 encoding of strings by
    [Buffer.from], HMAC-SHA256 with hexadecimal output, and
    [crypto.timingSafeEqual]. *)

From Stdlib Require Import NArith List Floats Lia.
From Stdlib Require Import Ascii String.
From stdpp Require Import gmap list.

Set Warnings "-register-all".

Local Open Scope N_scope.

(** ** JavaScript values *)

Module JS.

(** A JavaScript string is a sequence of UTF-16 code units. *)
Definition jsstring := list N.

(** Source literals are ASCII; [js "subscribe"] is the string's code units. *)
Definition js (s : string) : jsstring :=
  List.map N_of_ascii (list_ascii_of_string s).

(** A value as [JSON.parse] produces it, plus [undefined], which is what
    reading a missing property gives.  Numbers are IEEE 754 doubles;
    objects are finite maps from property names to values. *)
Inductive value :=
| VUndefined
| VNull
| VBool (b : bool)
| VNumber (x : float)
| VString (s : jsstring)
| VArray (l : list value)
| VObject (o : gmap jsstring value).

(** An evaluation either completes with a value or throws. *)
Inductive js_error := TypeError | RangeError.

Inductive result (A : Type) :=
| Ok (a : A)
| Throw (e : js_error).
Arguments Ok {A} a.
Arguments Throw {A} e.

#[global] Instance result_ret : MRet result := fun _ a => Ok a.

#[global] Instance result_bind : MBind result := fun _ _ k r =>
  match r with
  | Ok a => k a
  | Throw e => Throw e
  end.

(** ToBoolean: [undefined], [null], [false], [0], [-0], [NaN] and the empty
    string are falsy, everything else (every array and object) is truthy. *)
Definition truthy (v : value) : bool :=
  match v with
  | VUndefined | VNull => false
  | VBool b => b
  | VNumber x => negb (PrimFloat.eqb x 0 || PrimFloat.is_nan x)
  | VString s => negb (bool_decide (s = []))
  | VArray _ | VObject _ => true
  end.

(** The decimal value of a digit string, most significant digit first. *)
Fixpoint digits_value (acc : N) (k : jsstring) : option N :=
  match k with
  | [] => Some acc
  | c :: k' =>
      if (48 <=? c) && (c <=? 57) then digits_value (10 * acc + (c - 48)) k'
      else None
  end.

(** A property name is an array index when it is the canonical decimal
    numeral of a number: digits only, no leading zero except ["0"] itself. *)
Definition array_index (k : jsstring) : option nat :=
  match k with
  | [] => None
  | c :: k' =>
      if (c =? 48) && negb (bool_decide (k' = [])) then None
      else N.to_nat <$> digits_value 0 k
  end.

(** Property read [v[k]] (and [v.k]).  Reading a property of [undefined] or
    [null] throws a TypeError; a missing property reads as [undefined].
    Only own properties are modelled: [length] and the inherited methods of
    arrays, strings, numbers and booleans are left out, and none of the
    names the handler reads ([entry], [changes], [value], [messages],
    [statuses], [0], [hub.mode], [hub.verify_token], [hub.challenge]) is
    one of them. *)
Definition get (v : value) (k : jsstring) : result value :=
  match v with
  | VUndefined | VNull => Throw TypeError
  | VBool _ | VNumber _ => Ok VUndefined
  | VString s =>
      Ok (match array_index k with
          | Some i => match s !! i with
                      | Some c => VString [c]
                      | None => VUndefined
                      end
          | None => VUndefined
          end)
  | VArray l =>
      Ok (match array_index k with
          | Some i => default VUndefined (l !! i)
          | None => VUndefined
          end)
  | VObject o => Ok (default VUndefined (o !! k))
  end.

(** A chain of property reads [v.k1.k2...], left to right. *)
Fixpoint get_path (v : value) (ks : list jsstring) : result value :=
  match ks with
  | [] => Ok v
  | k :: ks' => w ← get v k; get_path w ks'
  end.

(** [a && b]: [b] is evaluated only when [a] completes with a truthy value;
    a falsy [a] is the value of the whole expression. *)
Definition js_and (a b : result value) : result value :=
  x ← a; if truthy x then b else Ok x.

(** [v === s] for a string [s]: no conversion, so only a string with the
    same code units is equal to it. *)
Definition strict_eq_string (v : value) (s : jsstring) : bool :=
  match v with
  | VString t => bool_decide (t = s)
  | _ => false
  end.

End JS.

(** ** SHA-256 and HMAC

    [crypto.createHmac('sha256', key)] of Node is HMAC (RFC 2104) over
    SHA-256 (FIPS 180-4).  Bytes and 32-bit words are numbers in [N], with
    the wrap-around of word arithmetic written out.  The definitions are
    checked against the test vectors of FIPS 180-4 and RFC 4231 below. *)

Module Sha256.

Definition wrap32 (x : N) : N := x mod 2 ^ 32.

Definition rotr (n x : N) : N :=
  N.lor (N.shiftr x n) (wrap32 (N.shiftl x (32 - n))).

Definition choose (x y z : N) : N :=
  N.lxor (N.land x y) (N.land (N.lxor x (2 ^ 32 - 1)) z).

Definition majority (x y z : N) : N :=
  N.lxor (N.lxor (N.land x y) (N.land x z)) (N.land y z).

Definition big_sigma0 (x : N) : N :=
  N.lxor (N.lxor (rotr 2 x) (rotr 13 x)) (rotr 22 x).

Definition big_sigma1 (x : N) : N :=
  N.lxor (N.lxor (rotr 6 x) (rotr 11 x)) (rotr 25 x).

Definition small_sigma0 (x : N) : N :=
  N.lxor (N.lxor (rotr 7 x) (rotr 18 x)) (N.shiftr x 3).

Definition small_sigma1 (x : N) : N :=
  N.lxor (N.lxor (rotr 17 x) (rotr 19 x)) (N.shiftr x 10).

(** The integer cube root, found one bit at a time from bit [bits - 1] down. *)
Fixpoint cube_root_from (bits : nat) (n r : N) : N :=
  match bits with
  | O => r
  | S bits' =>
      let r' := r + 2 ^ N.of_nat bits' in
      cube_root_from bits' n (if r' * r' * r' <=? n then r' else r)
  end.

Definition cube_root (n : N) : N := cube_root_from 40 n 0.

Definition first_primes : list N :=
  [ 2; 3; 5; 7; 11; 13; 17; 19; 23; 29; 31; 37; 41; 43; 47; 53;
    59; 61; 67; 71; 73; 79; 83; 89; 97; 101; 103; 107; 109; 113; 127; 131;
    137; 139; 149; 151; 157; 163; 167; 173; 179; 181; 191; 193; 197; 199;
    211; 223; 227; 229; 233; 239; 241; 251; 257; 263; 269; 271; 277; 281;
    283; 293; 307; 311 ].

(** The round constants: the first 32 bits of the fractional parts of the
    cube roots of the first 64 primes. *)
Definition round_constants : list N :=
  Eval vm_compute in
    List.map (fun p => wrap32 (cube_root (p * 2 ^ 96))) first_primes.

(** The hash state is eight 32-bit words. *)
Definition state : Type := N * N * N * N * N * N * N * N.

(** The initial state: the first 32 bits of the fractional parts of the
    square roots of the first 8 primes. *)
Definition initial_state : state :=
  Eval vm_compute in
    let r p := wrap32 (N.sqrt (p * 2 ^ 64)) in
    (r 2, r 3, r 5, r 7, r 11, r 13, r 17, r 19).

(** Padding: a [0x80] byte, zero bytes up to 56 modulo 64, and the bit
    length of the message as a 64-bit big-endian number. *)
Definition big_endian (bytes : nat) (x : N) : list N :=
  List.map (fun i => (x / 2 ^ (8 * N.of_nat i)) mod 256) (rev (seq 0 bytes)).

Definition pad (msg : list N) : list N :=
  let len := N.of_nat (length msg) in
  let zeros := N.to_nat ((64 - (len + 9) mod 64) mod 64) in
  msg ++ [128] ++ repeat 0 zeros ++ big_endian 8 (8 * len).

Fixpoint words (bytes : list N) : list N :=
  match bytes with
  | b0 :: b1 :: b2 :: b3 :: rest =>
      (b0 * 2 ^ 24 + b1 * 2 ^ 16 + b2 * 2 ^ 8 + b3) :: words rest
  | _ => []
  end.

(** The words cut into blocks of sixteen; [cur] holds the block being
    filled, last word first, and [room] the number of words it still lacks. *)
Fixpoint blocks_from (cur : list N) (room : nat) (ws : list N) : list (list N) :=
  match ws with
  | [] => []
  | x :: ws' =>
      match room with
      | O => rev (x :: cur) :: blocks_from [] 15 ws'
      | S room' => blocks_from (x :: cur) room' ws'
      end
  end.

Definition blocks (ws : list N) : list (list N) := blocks_from [] 15 ws.

(** The message schedule: the sixteen words of the block, extended to 64. *)
Fixpoint extend (n : nat) (sched : list N) : list N :=
  match n with
  | O => sched
  | S n' =>
      let t := length sched in
      let at_ i := nth (t - i) sched 0 in
      let x := wrap32 (small_sigma1 (at_ 2%nat) + at_ 7%nat
                       + small_sigma0 (at_ 15%nat) + at_ 16%nat) in
      extend n' (sched ++ [x])
  end.

Definition schedule (block : list N) : list N := extend 48 block.

Definition round (s : state) (kw : N * N) : state :=
  let '(a, b, c, d, e, f, g, h) := s in
  let t1 := wrap32 (h + big_sigma1 e + choose e f g + fst kw + snd kw) in
  let t2 := wrap32 (big_sigma0 a + majority a b c) in
  (wrap32 (t1 + t2), a, b, c, wrap32 (d + t1), e, f, g).

Definition compress (s : state) (block : list N) : state :=
  let '(a, b, c, d, e, f, g, h) := s in
  let '(a', b', c', d', e', f', g', h') :=
    fold_left round (combine round_constants (schedule block)) s in
  (wrap32 (a + a'), wrap32 (b + b'), wrap32 (c + c'), wrap32 (d + d'),
   wrap32 (e + e'), wrap32 (f + f'), wrap32 (g + g'), wrap32 (h + h')).

Definition state_bytes (s : state) : list N :=
  let '(a, b, c, d, e, f, g, h) := s in
  List.concat (List.map (big_endian 4) [a; b; c; d; e; f; g; h]).

Definition sha256 (msg : list N) : list N :=
  state_bytes (fold_left compress (blocks (words (pad msg))) initial_state).

(** HMAC: a key longer than a block is hashed first, then padded with zero
    bytes to the block length of 64 bytes. *)
Definition hmac_sha256 (key msg : list N) : list N :=
  let key0 := if (64 <? length key)%nat then sha256 key else key in
  let key_block := key0 ++ repeat 0 (64 - length key0)%nat in
  let inner := sha256 (List.map (N.lxor 54) key_block ++ msg) in
  sha256 (List.map (N.lxor 92) key_block ++ inner).

End Sha256.

(** ** Strings, buffers and the crypto primitives *)

Module Node.
Import JS.

(** [s.split(sep)] for a separator of one code unit: the pieces of [s]
    between the occurrences of [sep]; a string without [sep] is the only
    piece, and the empty string gives one empty piece. *)
Fixpoint split (sep : N) (s : jsstring) : list jsstring :=
  match s with
  | [] => [[]]
  | c :: s' =>
      if c =? sep then [] :: split sep s'
      else match split sep s' with
           | piece :: pieces => (c :: piece) :: pieces
           | [] => [[c]]
           end
  end.

Definition high_surrogate (u : N) : bool := (55296 <=? u) && (u <=? 56319).
Definition low_surrogate (u : N) : bool := (56320 <=? u) && (u <=? 57343).

(** The three bytes of U+FFFD, written for an unpaired surrogate. *)
Definition replacement : list N := [239; 191; 189].

(** [Buffer.from(s)] (encoding [utf8]): one to three bytes for a code unit
    outside the surrogate range, four bytes for a surrogate pair. *)
Fixpoint utf8_encode (s : jsstring) : list N :=
  match s with
  | [] => []
  | u :: s' =>
      if u <? 128 then u :: utf8_encode s'
      else if u <? 2048 then
        [192 + u / 64; 128 + u mod 64] ++ utf8_encode s'
      else if high_surrogate u then
        match s' with
        | v :: s'' =>
            if low_surrogate v then
              let cp := 65536 + (u - 55296) * 1024 + (v - 56320) in
              [240 + cp / 262144; 128 + (cp / 4096) mod 64;
               128 + (cp / 64) mod 64; 128 + cp mod 64] ++ utf8_encode s''
            else replacement ++ utf8_encode s'
        | [] => replacement
        end
      else if low_surrogate u then replacement ++ utf8_encode s'
      else
        [224 + u / 4096; 128 + (u / 64) mod 64; 128 + u mod 64]
          ++ utf8_encode s'
  end.

(** [Buffer.from(x)] where [x] may be [undefined] (here [None]), which
    [Buffer.from] refuses with a TypeError. *)
Definition buffer_from (x : option jsstring) : result (list N) :=
  match x with
  | Some s => Ok (utf8_encode s)
  | None => Throw TypeError
  end.

(** Lowercase hexadecimal, two digits a byte, as [digest('hex')] renders. *)
Definition hex_digit (d : N) : N := if d <? 10 then 48 + d else 87 + d.

Definition hex_encode (bytes : list N) : jsstring :=
  List.flat_map (fun b => [hex_digit (N.shiftr b 4); hex_digit (N.land b 15)]) bytes.

(** [crypto.timingSafeEqual(a, b)]: a RangeError when the byte lengths
    differ; otherwise every pair of bytes is combined into one accumulator,
    which is zero exactly when no pair differs. *)
Definition timingSafeEqual (a b : list N) : result bool :=
  if bool_decide (length a = length b) then
    Ok (fold_left (fun acc xy => N.lor acc (N.lxor xy.1 xy.2)) (combine a b) 0 =? 0)
  else Throw RangeError.

End Node.

(** ** The handler *)

Module WebhookHandler.
Import JS Node.

(** The request body handed to [validateSignature]: [string | Buffer].  A
    buffer is its list of bytes, numbers below 256. *)
Inductive raw_payload :=
| PString (s : jsstring)
| PBuffer (b : list N).

(** What [hmac.update(payload)] feeds to the hash: a string is encoded as
    UTF-8, a buffer is taken as it is. *)
Definition payload_bytes (payload : raw_payload) : list N :=
  match payload with
  | PString s => utf8_encode s
  | PBuffer b => b
  end.

(** [createHmac('sha256', appSecret)], [update(payload)], [digest('hex')]. *)
Definition hmac_hex (appSecret : jsstring) (payload : raw_payload) : jsstring :=
  hex_encode (Sha256.hmac_sha256 (utf8_encode appSecret) (payload_bytes payload)).

Definition verifyWebhook (query : value) (verifyToken : jsstring) : result value :=
  mode ← get query (js "hub.mode");
  token ← get query (js "hub.verify_token");
  challenge ← get query (js "hub.challenge");
  both ← js_and (Ok mode) (Ok token);
  if truthy both then
    if strict_eq_string mode (js "subscribe") && strict_eq_string token verifyToken
    then Ok challenge
    else Ok VNull
  else Ok VNull.

(** [signature] is [None] when the header is absent ([undefined]). *)
Definition validateSignature (payload : raw_payload) (signature : option jsstring)
    (appSecret : jsstring) : result bool :=
  match signature with
  | None => Ok false
  | Some signature =>
      if negb (truthy (VString signature)) then Ok false
      else
        let parts := split 61 signature in
        if negb (length parts =? 2)%nat then Ok false
        else
          let sigHash := parts !! 1%nat in
          let digest := hmac_hex appSecret payload in
          digestRead ← buffer_from (Some digest);
          sigRead ← buffer_from sigHash;
          if negb (length digestRead =? length sigRead)%nat then Ok false
          else timingSafeEqual digestRead sigRead
  end.

Definition entry : jsstring := js "entry".
Definition changes : jsstring := js "changes".
Definition messages : jsstring := js "messages".
Definition statuses : jsstring := js "statuses".
Definition zero : jsstring := js "0".

Definition getFirstMessage (payload : value) : result value :=
  cond ← js_and
           (js_and
              (js_and (get_path payload [entry])
                      (get_path payload [entry; zero; changes]))
              (get_path payload [entry; zero; changes; zero; js "value"; messages]))
           (get_path payload [entry; zero; changes; zero; js "value"; messages; zero]);
  if truthy cond then
    get_path payload [entry; zero; changes; zero; js "value"; messages; zero]
  else Ok VNull.

Definition getFirstStatus (payload : value) : result value :=
  cond ← js_and
           (js_and
              (js_and (get_path payload [entry])
                      (get_path payload [entry; zero; changes]))
              (get_path payload [entry; zero; changes; zero; js "value"; statuses]))
           (get_path payload [entry; zero; changes; zero; js "value"; statuses; zero]);
  if truthy cond then
    get_path payload [entry; zero; changes; zero; js "value"; statuses; zero]
  else Ok VNull.

End WebhookHandler.

(** ** Vocabulary of the statements *)

Module Spec.
Import JS Node WebhookHandler.

(** An object literal: [obj [prop "entry" v]] is [{entry: v}]. *)
Definition prop (name : string) (v : value) : jsstring * value := (js name, v).

Definition obj (props : list (jsstring * value)) : value :=
  VObject (list_to_map props).

(** The characters [0-9], [a-f] and [A-F]. *)
Definition hex_char (c : N) : bool :=
  ((48 <=? c) && (c <=? 57)) || ((97 <=? c) && (c <=? 102))
  || ((65 <=? c) && (c <=? 70)).

(** The lowercase hexadecimal digits [0-9a-f]. *)
Definition lower_hex (c : N) : Prop := 48 <= c <= 57 \/ 97 <= c <= 102.

(** The headers that pass: exactly two parts around [=], the second part
    being the digest, character for character. *)
Definition accepted (digest : jsstring) (signature : option jsstring) : bool :=
  match signature with
  | Some header =>
      match split 61 header with
      | [_; d] => bool_decide (d = digest)
      | _ => false
      end
  | None => false
  end.

Definition lower_letter (c : N) : bool := (97 <=? c) && (c <=? 122).

(** [toUpperCase] on a string of ASCII characters. *)
Definition upper_char (c : N) : N := if lower_letter c then c - 32 else c.
Definition to_upper (s : jsstring) : jsstring := List.map upper_char s.

(** The value of a hexadecimal digit, and the bytes a hexadecimal string
    stands for ([None] when it is not made of pairs of digits). *)
Definition hex_value (c : N) : option N :=
  if (48 <=? c) && (c <=? 57) then Some (c - 48)
  else if (97 <=? c) && (c <=? 102) then Some (c - 87)
  else if (65 <=? c) && (c <=? 70) then Some (c - 55)
  else None.

Fixpoint hex_decode (s : jsstring) : option (list N) :=
  match s with
  | [] => Some []
  | hi :: lo :: s' =>
      h ← hex_value hi; l ← hex_value lo; bs ← hex_decode s'; Some (16 * h + l :: bs)
  | _ => None
  end.

(** The guarded read shared by [getFirstMessage] and [getFirstStatus],
    for the events under the property [field]. *)
Definition first_event (field : jsstring) (payload : value) : result value :=
  cond ← js_and
           (js_and
              (js_and (get_path payload [entry])
                      (get_path payload [entry; zero; changes]))
              (get_path payload [entry; zero; changes; zero; js "value"; field]))
           (get_path payload [entry; zero; changes; zero; js "value"; field; zero]);
  if truthy cond then
    get_path payload [entry; zero; changes; zero; js "value"; field; zero]
  else Ok VNull.

(** The headers [validateSignature] is to reject, against the digest
    [digest] it computes: absent, empty, not two parts around [=], a
    digest half of another length (in characters or in bytes), or a digest
    half with a character that is no hexadecimal digit. *)
Inductive malformed (digest : jsstring) : option jsstring -> Prop :=
| header_absent : malformed digest None
| header_empty : malformed digest (Some [])
| header_parts sig :
    length (split 61 sig) <> 2%nat -> malformed digest (Some sig)
| header_length sig x d :
    split 61 sig = [x; d] -> length d <> length digest ->
    malformed digest (Some sig)
| header_byte_length sig x d :
    split 61 sig = [x; d] ->
    length (utf8_encode d) <> length (utf8_encode digest) ->
    malformed digest (Some sig)
| header_not_hex sig x d c :
    split 61 sig = [x; d] -> c ∈ d -> hex_char c = false ->
    malformed digest (Some sig).

End Spec.

(** ** The client: pure parts of [WhatsAppBusiness] *)

Module Client.
Import JS Node.

(** [parts.join(sep)] on an array of strings: the strings in order, with
    [sep] between two neighbours; the empty array gives the empty string. *)
Fixpoint join (sep : N) (parts : list jsstring) : jsstring :=
  match parts with
  | [] => []
  | x :: rest =>
      match rest with
      | [] => x
      | _ :: _ => x ++ sep :: join sep rest
      end
  end.






(** [uploadMediaForTemplate]: the node of the upload session,
    [senderPhoneNumberId.split('_')[0]] ([None] for [undefined]). *)
Definition upload_node (senderPhoneNumberId : jsstring) : option jsstring :=
  split 95 senderPhoneNumberId !! 0%nat.

(** [uploadMediaForTemplate]: the [file_name] parameter,
    [filePath.split('/').pop()]; [pop] gives [undefined] (here [None]) on
    an empty array. *)
Definition file_name (filePath : jsstring) : option jsstring :=
  last (split 47 filePath).

(** [getAnalytics]: [xs ? xs.join(',') : undefined], for the optional
    arrays [metric_types] and [phone_numbers]; every array is truthy. *)
Definition joined_param (xs : option (list jsstring)) : value :=
  match xs with
  | Some parts => VString (join 44 parts)
  | None => VUndefined
  end.

End Client.

(** ** The routes of the implementation guide *)

Module Guide.
Import JS Node WebhookHandler.

(** What a route does to the outside: [res.send], [res.sendStatus],
    [console.log] of [`From ${sender}: ${body}`] (kept as the two values
    that are interpolated), and the call [whatsapp.sendText(to, text)]. *)
Inductive action :=
| Send (body : value)
| SendStatus (code : N)
| Log (sender body : value)
| SendText (to : value) (text : jsstring).

(** [app.get('/webhook', ...)]: the verify endpoint.  An exception leaves
    the route before any action. *)
Definition verify_endpoint (query : value) (verifyToken : jsstring)
    : result (list action) :=
  challenge ← verifyWebhook query verifyToken;
  if truthy challenge then Ok [Send challenge] else Ok [SendStatus 400].





End Guide.

(** ** Vocabulary of the further statements *)

Module Coverage.
Import JS Node WebhookHandler.

(** What the extraction makes of the events property of the first
    change's value: nothing when the property is absent or falsy, else its
    element [0] when that is truthy. *)
Definition picked (events : option value) : result value :=
  match events with
  | None => Ok VNull
  | Some m =>
      if truthy m then x ← get m zero; if truthy x then Ok x else Ok VNull
      else Ok VNull
  end.

(** The three properties [verifyWebhook] reads. *)
Definition hub_fields : list jsstring :=
  [js "hub.mode"; js "hub.verify_token"; js "hub.challenge"].

End Coverage.

Import JS Node WebhookHandler Spec.

(** ** The hash: test vectors and shape of the output *)

(** SHA-256 of ["abc"] (FIPS 180-4, appendix B.1). *)
Example sha256_abc :
  hex_encode (Sha256.sha256 (js "abc"))
  = js "ba7816bf8f01cfea414140de5dae2223b00361a396177a9cb410ff61f20015ad".
Proof. vm_compute. reflexivity. Qed.

(** SHA-256 of the two-block message of FIPS 180-4, appendix B.2. *)
Example sha256_two_blocks :
  hex_encode (Sha256.sha256
    (js "abcdbcdecdefdefgefghfghighijhijkijkljklmklmnlmnomnopnopq"))
  = js "248d6a61d20638b8e5c026930c3e6039a33ce45964ff2167f6ecedd419db06c1".
Proof. vm_compute. reflexivity. Qed.

(** HMAC-SHA256, RFC 4231 test case 2. *)
Example hmac_rfc4231_2 :
  hmac_hex (js "Jefe") (PString (js "what do ya want for nothing?"))
  = js "5bdcc146bf60754e6a042426089575c75a003f089d2739839dec58b964ec3843".
Proof. vm_compute. reflexivity. Qed.

(** HMAC-SHA256, RFC 4231 test case 6: a key of 131 bytes is hashed first. *)
Example hmac_rfc4231_6 :
  hex_encode (Sha256.hmac_sha256 (repeat 170 131)
    (js "Test Using Larger Than Block-Size Key - Hash Key First"))
  = js "60e431591ee0b67f0d8a26aacbf5b77f8e0bc6213728c5140546040f0ee37f54".
Proof. vm_compute. reflexivity. Qed.

Section HashShape.

Lemma big_endian_4 (x : N) :
  Sha256.big_endian 4 x
  = [(x / 2 ^ 24) mod 256; (x / 2 ^ 16) mod 256; (x / 2 ^ 8) mod 256;
     (x / 2 ^ 0) mod 256].
Proof. reflexivity. Qed.

Lemma state_bytes_length (s : Sha256.state) : length (Sha256.state_bytes s) = 32%nat.
Proof. destruct s as [[[[[[[a b] c] d] e] f] g] h]. reflexivity. Qed.

Lemma state_bytes_range (s : Sha256.state) :
  Forall (fun b => b < 256) (Sha256.state_bytes s).
Proof.
  destruct s as [[[[[[[a b] c] d] e] f] g] h].
  unfold Sha256.state_bytes. cbn [List.map List.concat].
  rewrite !big_endian_4. cbn [app].
  repeat constructor; apply N.mod_upper_bound; discriminate.
Qed.

Lemma sha256_length (msg : list N) : length (Sha256.sha256 msg) = 32%nat.
Proof. apply state_bytes_length. Qed.

Lemma sha256_range (msg : list N) : Forall (fun b => b < 256) (Sha256.sha256 msg).
Proof. apply state_bytes_range. Qed.

Lemma hmac_sha256_length (key msg : list N) :
  length (Sha256.hmac_sha256 key msg) = 32%nat.
Proof. apply sha256_length. Qed.

Lemma hmac_sha256_range (key msg : list N) :
  Forall (fun b => b < 256) (Sha256.hmac_sha256 key msg).
Proof. apply sha256_range. Qed.

End HashShape.

(** ** Splitting on a separator *)

Section Split.
Variable sep : N.

Lemma split_cons (c : N) (s : jsstring) :
  split sep (c :: s)
  = if c =? sep then [] :: split sep s
    else match split sep s with
         | piece :: pieces => (c :: piece) :: pieces
         | [] => [[c]]
         end.
Proof. reflexivity. Qed.

Lemma split_without (s : jsstring) : sep ∉ s -> split sep s = [s].
Proof.
  induction s as [|c s IH]; intros Hs; [reflexivity|].
  apply not_elem_of_cons in Hs as [Hc Hs].
  rewrite split_cons, (IH Hs).
  destruct (N.eqb_spec c sep) as [E|E]; [symmetry in E; contradiction|reflexivity].
Qed.

Lemma split_at_first (x d : jsstring) :
  sep ∉ x -> split sep (x ++ sep :: d) = x :: split sep d.
Proof.
  induction x as [|c x IH]; intros Hx.
  - cbn [app]. rewrite split_cons, N.eqb_refl. reflexivity.
  - apply not_elem_of_cons in Hx as [Hc Hx].
    cbn [app]. rewrite split_cons, (IH Hx).
    destruct (N.eqb_spec c sep) as [E|E]; [symmetry in E; contradiction|reflexivity].
Qed.

Lemma split_two (x d : jsstring) :
  sep ∉ x -> sep ∉ d -> split sep (x ++ sep :: d) = [x; d].
Proof. intros Hx Hd. rewrite (split_at_first _ _ Hx), (split_without _ Hd). reflexivity. Qed.

End Split.

(** ** The comparison of [timingSafeEqual] *)

Section Comparison.

Let step (acc : N) (xy : N * N) : N := N.lor acc (N.lxor xy.1 xy.2).

Lemma accumulate_zero (a b : list N) (acc : N) :
  length a = length b ->
  fold_left step (combine a b) acc = 0 <-> acc = 0 /\ a = b.
Proof.
  revert b acc. induction a as [|x a IH]; intros [|y b] acc Hlen;
    try discriminate.
  - cbn. intuition.
  - injection Hlen as Hlen. cbn [combine fold_left].
    rewrite (IH b (step acc (x, y)) Hlen). unfold step. cbn [fst snd].
    rewrite N.lor_eq_0_iff, N.lxor_eq_0_iff.
    split.
    + intros [[-> ->] ->]. auto.
    + intros [-> [= -> ->]]. auto.
Qed.

Lemma timingSafeEqual_same_length (a b : list N) :
  length a = length b ->
  timingSafeEqual a b = Ok (bool_decide (a = b)).
Proof.
  intros Hlen. unfold timingSafeEqual.
  rewrite bool_decide_eq_true_2 by assumption. f_equal. fold step.
  destruct (N.eqb_spec (fold_left step (combine a b) 0) 0) as [H|H].
  - apply accumulate_zero in H as [_ ->]; [|assumption].
    symmetry. apply bool_decide_eq_true_2. reflexivity.
  - symmetry. apply bool_decide_eq_false_2. intros ->.
    apply H, accumulate_zero; auto.
Qed.

Lemma timingSafeEqual_other_length (a b : list N) :
  length a <> length b -> timingSafeEqual a b = Throw RangeError.
Proof.
  intros Hlen. unfold timingSafeEqual.
  rewrite bool_decide_eq_false_2 by assumption. reflexivity.
Qed.

End Comparison.

(** ** UTF-8 encoding and hexadecimal text *)

Section Encoding.

Lemma utf8_encode_cons (u : N) (s : jsstring) :
  utf8_encode (u :: s)
  = if u <? 128 then u :: utf8_encode s
    else if u <? 2048 then [192 + u / 64; 128 + u mod 64] ++ utf8_encode s
    else if high_surrogate u then
      match s with
      | v :: s' =>
          if low_surrogate v then
            let cp := 65536 + (u - 55296) * 1024 + (v - 56320) in
            [240 + cp / 262144; 128 + (cp / 4096) mod 64;
             128 + (cp / 64) mod 64; 128 + cp mod 64] ++ utf8_encode s'
          else replacement ++ utf8_encode s
      | [] => replacement
      end
    else if low_surrogate u then replacement ++ utf8_encode s
    else [224 + u / 4096; 128 + (u / 64) mod 64; 128 + u mod 64] ++ utf8_encode s.
Proof. destruct s; reflexivity. Qed.

(** ASCII text is its own encoding. *)
Lemma utf8_encode_ascii (s : jsstring) :
  Forall (fun c => c < 128) s -> utf8_encode s = s.
Proof.
  induction 1 as [|c s Hc _ IH]; [reflexivity|].
  rewrite utf8_encode_cons.
  apply N.ltb_lt in Hc. rewrite Hc, IH. reflexivity.
Qed.

(** Only ASCII text has an encoding made of bytes below 128. *)
Lemma utf8_encode_ascii_inv (s : jsstring) :
  Forall (fun b => b < 128) (utf8_encode s) -> utf8_encode s = s.
Proof.
  induction s as [|u s IH]; [reflexivity|].
  rewrite utf8_encode_cons.
  destruct (u <? 128).
  - intros H. apply Forall_cons in H as [_ H]. rewrite (IH H). reflexivity.
  - destruct (u <? 2048); [|destruct (high_surrogate u);
      [destruct s as [|v s']; [|destruct (low_surrogate v)]
      |destruct (low_surrogate u)]];
    cbn [app replacement]; cbv zeta;
    intros H; apply Forall_cons in H as [H _]; exfalso; revert H;
    try discriminate;
    match goal with |- ?a + ?x < 128 -> False => generalize x end;
    intros; lia.
Qed.

Lemma utf8_encode_eq_ascii (digest d : jsstring) :
  Forall (fun c => c < 128) digest ->
  utf8_encode digest = utf8_encode d <-> d = digest.
Proof.
  intros Hascii. rewrite (utf8_encode_ascii _ Hascii). split.
  - intros H.
    assert (Hd : utf8_encode d = d)
      by (apply utf8_encode_ascii_inv; rewrite <- H; assumption).
    rewrite Hd in H. symmetry. exact H.
  - intros ->. symmetry. apply utf8_encode_ascii, Hascii.
Qed.

Lemma hex_digit_lower (d : N) : d < 16 -> lower_hex (hex_digit d).
Proof.
  intros Hd. unfold hex_digit, lower_hex.
  destruct (N.ltb_spec d 10); lia.
Qed.

Lemma high_digit_bound (b : N) : b < 256 -> N.shiftr b 4 < 16.
Proof.
  intros Hb. rewrite N.shiftr_div_pow2.
  apply N.Div0.div_lt_upper_bound. exact Hb.
Qed.

Lemma low_digit_bound (b : N) : N.land b 15 < 16.
Proof.
  change 15 with (N.ones 4). rewrite N.land_ones.
  apply N.mod_upper_bound. discriminate.
Qed.

Lemma hex_encode_cons (b : N) (bytes : list N) :
  hex_encode (b :: bytes)
  = hex_digit (N.shiftr b 4) :: hex_digit (N.land b 15) :: hex_encode bytes.
Proof. reflexivity. Qed.

Lemma hex_encode_lower (bytes : list N) :
  Forall (fun b => b < 256) bytes -> Forall lower_hex (hex_encode bytes).
Proof.
  induction 1 as [|b bytes Hb _ IH]; [constructor|].
  rewrite hex_encode_cons.
  constructor; [|constructor; [|exact IH]]; apply hex_digit_lower;
    [apply high_digit_bound, Hb | apply low_digit_bound].
Qed.

Lemma hex_encode_length (bytes : list N) :
  length (hex_encode bytes) = (2 * length bytes)%nat.
Proof.
  induction bytes as [|b bytes IH]; [reflexivity|].
  rewrite hex_encode_cons. cbn [length]. lia.
Qed.

Lemma lower_hex_ascii (c : N) : lower_hex c -> c < 128.
Proof. unfold lower_hex. lia. Qed.

Lemma lower_hex_not_equals_sign (s : jsstring) : Forall lower_hex s -> 61 ∉ s.
Proof.
  intros H Hin. rewrite Forall_forall in H. apply H in Hin.
  unfold lower_hex in Hin. lia.
Qed.

Lemma lower_hex_is_hex_char (c : N) : lower_hex c -> hex_char c = true.
Proof.
  unfold lower_hex, hex_char. intros H.
  destruct (N.leb_spec 48 c), (N.leb_spec c 57), (N.leb_spec 97 c),
    (N.leb_spec c 102); cbn; try reflexivity; lia.
Qed.

End Encoding.

(** ** The digest [validateSignature] computes *)

Section Digest.
Variables (appSecret : jsstring) (payload : raw_payload).

Lemma hmac_hex_lower : Forall lower_hex (hmac_hex appSecret payload).
Proof. apply hex_encode_lower, hmac_sha256_range. Qed.

Lemma hmac_hex_length : length (hmac_hex appSecret payload) = 64%nat.
Proof.
  unfold hmac_hex. rewrite hex_encode_length, hmac_sha256_length. reflexivity.
Qed.

Lemma hmac_hex_ascii : Forall (fun c => c < 128) (hmac_hex appSecret payload).
Proof. eapply Forall_impl; [apply hmac_hex_lower|]. apply lower_hex_ascii. Qed.

Lemma hmac_hex_no_equals_sign : 61 ∉ hmac_hex appSecret payload.
Proof. apply lower_hex_not_equals_sign, hmac_hex_lower. Qed.

End Digest.

(** ** What [validateSignature] returns *)

Section ValidateSignature.
Variables (payload : raw_payload) (appSecret : jsstring).

(** [validateSignature] never throws, and it returns [true] exactly for
    the headers of two parts whose second part is the computed digest. *)
Lemma validateSignature_accepted (signature : option jsstring) :
  validateSignature payload signature appSecret
  = Ok (accepted (hmac_hex appSecret payload) signature).
Proof.
  destruct signature as [header|]; [|reflexivity].
  unfold validateSignature, accepted.
  destruct header as [|c header]; [reflexivity|].
  cbn [truthy]. rewrite bool_decide_eq_false_2 by discriminate. cbn [negb].
  destruct (split 61 (c :: header)) as [|x [|d [|y parts]]]; try reflexivity.
  cbn [length Nat.eqb negb lookup list_lookup buffer_from mbind result_bind].
  set (digest := hmac_hex appSecret payload).
  destruct (Nat.eqb_spec (length (utf8_encode digest)) (length (utf8_encode d)))
    as [Hlen|Hlen]; cbn [negb].
  - rewrite (timingSafeEqual_same_length _ _ Hlen). f_equal.
    apply bool_decide_ext, utf8_encode_eq_ascii, hmac_hex_ascii.
  - f_equal. symmetry. apply bool_decide_eq_false_2.
    intros ->. apply Hlen. reflexivity.
Qed.

(** The comparison is entered with buffers of one length only, so its
    RangeError cannot occur. *)
Lemma validateSignature_total (signature : option jsstring) :
  exists b, validateSignature payload signature appSecret = Ok b.
Proof. eexists. apply validateSignature_accepted. Qed.

End ValidateSignature.

(** ** Claims on [validateSignature] *)

Lemma sha256_prefix : js "sha256=" = js "sha256" ++ [61].
Proof. reflexivity. Qed.

Lemma sha256_no_equals_sign : 61 ∉ js "sha256".
Proof. compute_done. Qed.

(** C2: for every payload (string or buffer) and every secret, the header
    ["sha256="] followed by the lowercase hexadecimal HMAC-SHA256 of the
    payload under the secret is accepted: [validateSignature] returns
    [true]. *)
Theorem validateSignature_own_digest (payload : raw_payload) (appSecret : jsstring) :
  validateSignature payload
    (Some (js "sha256=" ++ hmac_hex appSecret payload)) appSecret
  = Ok true.
Proof.
  rewrite validateSignature_accepted. unfold accepted.
  rewrite sha256_prefix, <- app_assoc. cbn [app].
  rewrite split_two
    by (apply sha256_no_equals_sign || apply hmac_hex_no_equals_sign).
  rewrite bool_decide_eq_true_2; reflexivity.
Qed.

(** C6: the algorithm name is never inspected.  For every payload and
    secret, two headers that differ only in the part before [=] get the
    same answer; every header [X ++ "=" ++ D], with [X] any string without
    [=] (the empty one included) and [D] the lowercase hexadecimal digest
    of the payload under the secret, is accepted; so there are accepted
    headers whose first part is not ["sha256"]. *)
Theorem validateSignature_any_algorithm (payload : raw_payload)
    (appSecret : jsstring) :
  (forall x x' d : jsstring, 61 ∉ x -> 61 ∉ x' ->
     validateSignature payload (Some (x ++ js "=" ++ d)) appSecret
     = validateSignature payload (Some (x' ++ js "=" ++ d)) appSecret)
  /\ (forall x : jsstring, 61 ∉ x ->
        validateSignature payload
          (Some (x ++ js "=" ++ hmac_hex appSecret payload)) appSecret
        = Ok true)
  /\ (exists x : jsstring,
        x <> js "sha256"
        /\ validateSignature payload
             (Some (x ++ js "=" ++ hmac_hex appSecret payload)) appSecret
           = Ok true).
Proof.
  assert (Hany : forall x : jsstring, 61 ∉ x ->
            validateSignature payload
              (Some (x ++ js "=" ++ hmac_hex appSecret payload)) appSecret
            = Ok true).
  { intros x Hx. rewrite validateSignature_accepted. unfold accepted.
    change (js "=" ++ ?d) with (61 :: d).
    rewrite (split_two _ _ _ Hx) by apply hmac_hex_no_equals_sign.
    rewrite bool_decide_eq_true_2; reflexivity. }
  split; [|split; [exact Hany|]].
  - intros x x' d Hx Hx'. rewrite !validateSignature_accepted. unfold accepted.
    change (js "=" ++ ?d) with (61 :: d).
    rewrite (split_at_first _ _ _ Hx), (split_at_first _ _ _ Hx'). reflexivity.
  - exists []. split; [discriminate|]. apply Hany, not_elem_of_nil.
Qed.

Lemma validateSignature_any_algorithm_witness :
  (61 ∉ js "md5") /\ (61 ∉ js "") /\
  validateSignature (PString (js "hello"))
    (Some (js "md5" ++ js "=" ++ hmac_hex (js "secret") (PString (js "hello"))))
    (js "secret") = Ok true /\
  validateSignature (PBuffer [1; 2; 3])
    (Some (js "" ++ js "=" ++ hmac_hex (js "secret") (PBuffer [1; 2; 3])))
    (js "secret") = Ok true /\
  validateSignature (PString (js "hello")) (Some (js "md5" ++ js "=" ++ js "00"))
    (js "secret")
  = validateSignature (PString (js "hello")) (Some (js "" ++ js "=" ++ js "00"))
      (js "secret").
Proof.
  assert (H1 : 61 ∉ js "md5") by compute_done.
  assert (H2 : 61 ∉ js "") by compute_done.
  split; [exact H1|]. split; [exact H2|]. split; [|split].
  - exact (proj1 (proj2 (validateSignature_any_algorithm _ _)) _ H1).
  - exact (proj1 (proj2 (validateSignature_any_algorithm _ _)) _ H2).
  - exact (proj1 (validateSignature_any_algorithm _ _) _ _ _ H1 H2).
Defined.

(** C5: [validateSignature] fails closed.  For every payload and secret it
    returns [false], and does not throw, when the header is absent or
    empty, when splitting it on [=] does not give exactly two parts, when
    the digest part has another length than the computed digest, and when
    the digest part holds a character that is no hexadecimal digit. *)
Theorem validateSignature_fails_closed (payload : raw_payload)
    (appSecret : jsstring) (signature : option jsstring) :
  malformed (hmac_hex appSecret payload) signature ->
  validateSignature payload signature appSecret = Ok false.
Proof.
  intros Hbad. rewrite validateSignature_accepted. f_equal.
  destruct Hbad as [| |sig Hparts|sig x d Hsplit Hlen|sig x d Hsplit Hlen
                    |sig x d c Hsplit Hc Hhex]; cbn [accepted].
  - reflexivity.
  - reflexivity.
  - destruct (split 61 sig) as [|x [|d [|y parts]]]; try reflexivity.
    exfalso. apply Hparts. reflexivity.
  - rewrite Hsplit. apply bool_decide_eq_false_2. intros ->. apply Hlen. reflexivity.
  - rewrite Hsplit. apply bool_decide_eq_false_2. intros ->. apply Hlen. reflexivity.
  - rewrite Hsplit. apply bool_decide_eq_false_2. intros ->.
    pose proof (hmac_hex_lower appSecret payload) as Hlower.
    rewrite Forall_forall in Hlower.
    apply Hlower, lower_hex_is_hex_char in Hc. congruence.
Qed.

Lemma validateSignature_fails_closed_witness :
  (malformed (hmac_hex (js "secret") (PString (js "hello"))) None /\
   validateSignature (PString (js "hello")) None (js "secret") = Ok false) /\
  (malformed (hmac_hex (js "secret") (PString (js "hello"))) (Some (js "")) /\
   validateSignature (PString (js "hello")) (Some (js "")) (js "secret")
   = Ok false) /\
  (malformed (hmac_hex (js "secret") (PString (js "hello"))) (Some (js "sha256")) /\
   validateSignature (PString (js "hello")) (Some (js "sha256")) (js "secret")
   = Ok false) /\
  (malformed (hmac_hex (js "secret") (PString (js "hello"))) (Some (js "a=b=c")) /\
   validateSignature (PString (js "hello")) (Some (js "a=b=c")) (js "secret")
   = Ok false) /\
  (malformed (hmac_hex (js "secret") (PString (js "hello"))) (Some (js "sha256=88aab3")) /\
   validateSignature (PString (js "hello")) (Some (js "sha256=88aab3")) (js "secret")
   = Ok false) /\
  (malformed (hmac_hex (js "secret") (PString (js "hello")))
     (Some (js "sha256=zzaab3ede8d3adf94d26ab90d3bafd4a2083070c3bcce9c014ee04a443847c0b")) /\
   validateSignature (PString (js "hello"))
     (Some (js "sha256=zzaab3ede8d3adf94d26ab90d3bafd4a2083070c3bcce9c014ee04a443847c0b"))
     (js "secret")
   = Ok false).
Proof.
  assert (H1 : malformed (hmac_hex (js "secret") (PString (js "hello"))) None)
    by constructor.
  assert (H2 : malformed (hmac_hex (js "secret") (PString (js "hello"))) (Some (js "")))
    by constructor.
  assert (H3 : malformed (hmac_hex (js "secret") (PString (js "hello")))
                 (Some (js "sha256")))
    by (apply header_parts; vm_compute; discriminate).
  assert (H4 : malformed (hmac_hex (js "secret") (PString (js "hello")))
                 (Some (js "a=b=c")))
    by (apply header_parts; vm_compute; discriminate).
  assert (H5 : malformed (hmac_hex (js "secret") (PString (js "hello")))
                 (Some (js "sha256=88aab3")))
    by (apply (header_length _ _ (js "sha256") (js "88aab3"));
        [reflexivity | rewrite hmac_hex_length; discriminate]).
  assert (H6 : malformed (hmac_hex (js "secret") (PString (js "hello")))
                 (Some (js "sha256=zzaab3ede8d3adf94d26ab90d3bafd4a2083070c3bcce9c014ee04a443847c0b")))
    by (apply (header_not_hex _ _ (js "sha256")
                 (js "zzaab3ede8d3adf94d26ab90d3bafd4a2083070c3bcce9c014ee04a443847c0b") 122);
        [reflexivity | compute_done | reflexivity]).
  split; [split; [exact H1 | exact (validateSignature_fails_closed _ _ _ H1)]|].
  split; [split; [exact H2 | exact (validateSignature_fails_closed _ _ _ H2)]|].
  split; [split; [exact H3 | exact (validateSignature_fails_closed _ _ _ H3)]|].
  split; [split; [exact H4 | exact (validateSignature_fails_closed _ _ _ H4)]|].
  split; [split; [exact H5 | exact (validateSignature_fails_closed _ _ _ H5)]|].
  split; [exact H6 | exact (validateSignature_fails_closed _ _ _ H6)].
Defined.

(** ** Uppercase digests *)

Section Uppercase.

Lemma to_upper_fixed (s : jsstring) :
  to_upper s = s -> existsb lower_letter s = false.
Proof.
  induction s as [|c s IH]; [reflexivity|].
  cbn [to_upper List.map existsb]. intros [= Hc Hs].
  rewrite (IH Hs), orb_false_r.
  unfold upper_char in Hc. destruct (lower_letter c) eqn:Hl; [|reflexivity].
  unfold lower_letter in Hl. apply andb_true_iff in Hl as [Hl _].
  apply N.leb_le in Hl. lia.
Qed.

Lemma upper_char_lower_hex (c : N) : lower_hex c -> upper_char c <> 61.
Proof.
  unfold lower_hex, upper_char, lower_letter. intros Hc.
  destruct (N.leb_spec 97 c), (N.leb_spec c 122); cbn [andb]; lia.
Qed.

Lemma to_upper_no_equals_sign (s : jsstring) :
  Forall lower_hex s -> 61 ∉ to_upper s.
Proof.
  induction 1 as [|c s Hc _ IH]; cbn [to_upper List.map].
  - apply not_elem_of_nil.
  - apply not_elem_of_cons. split; [|exact IH].
    intros Heq. symmetry in Heq. revert Heq. apply upper_char_lower_hex, Hc.
Qed.

Lemma hex_value_upper (c : N) : hex_value (upper_char c) = hex_value c.
Proof.
  unfold upper_char, lower_letter.
  destruct (N.leb_spec 97 c), (N.leb_spec c 122); cbn [andb]; try reflexivity.
  unfold hex_value.
  repeat match goal with
         | |- context [?a <=? ?b] =>
             destruct (N.leb_spec a b); try (exfalso; lia); cbn [andb]
         end;
  try reflexivity; f_equal; lia.
Qed.

Lemma hex_decode_cons2 (hi lo : N) (s : jsstring) :
  hex_decode (hi :: lo :: s)
  = (h ← hex_value hi; l ← hex_value lo; bs ← hex_decode s; Some (16 * h + l :: bs)).
Proof. reflexivity. Qed.

(** Hexadecimal decoding does not tell the two cases apart. *)
Lemma hex_decode_upper_pair (s : jsstring) :
  hex_decode (to_upper s) = hex_decode s
  /\ forall c, hex_decode (to_upper (c :: s)) = hex_decode (c :: s).
Proof.
  induction s as [|lo s [IH1 IH2]]; [split; reflexivity|].
  split; [apply IH2|]. intros hi.
  cbn [to_upper List.map]. fold (to_upper s).
  rewrite !hex_decode_cons2, !hex_value_upper, IH1. reflexivity.
Qed.

Lemma hex_decode_upper (s : jsstring) : hex_decode (to_upper s) = hex_decode s.
Proof. apply hex_decode_upper_pair. Qed.

Lemma hex_value_digit (d : N) : d < 16 -> hex_value (hex_digit d) = Some d.
Proof.
  intros Hd. unfold hex_digit, hex_value.
  destruct (N.ltb_spec d 10);
  repeat match goal with
         | |- context [?a <=? ?b] =>
             destruct (N.leb_spec a b); try (exfalso; lia); cbn [andb]
         end;
  f_equal; lia.
Qed.

Lemma hex_decode_encode (bytes : list N) :
  Forall (fun b => b < 256) bytes -> hex_decode (hex_encode bytes) = Some bytes.
Proof.
  induction 1 as [|b bytes Hb _ IH]; [reflexivity|].
  rewrite hex_encode_cons, hex_decode_cons2.
  rewrite (hex_value_digit _ (high_digit_bound _ Hb)).
  rewrite (hex_value_digit _ (low_digit_bound b)), IH.
  cbn [mbind option_bind]. do 2 f_equal.
  rewrite N.shiftr_div_pow2. change 15 with (N.ones 4). rewrite N.land_ones.
  symmetry. apply N.div_mod. discriminate.
Qed.

End Uppercase.

(** C10: the comparison is case-sensitive on the hexadecimal text.  For
    every payload and secret whose digest holds a letter, the header
    ["sha256="] followed by the uppercase digest is rejected, although the
    uppercase text stands for the same bytes as the lowercase digest that
    is accepted. *)
Theorem validateSignature_uppercase_digest (payload : raw_payload)
    (appSecret : jsstring) :
  existsb lower_letter (hmac_hex appSecret payload) = true ->
  validateSignature payload
    (Some (js "sha256=" ++ to_upper (hmac_hex appSecret payload))) appSecret
  = Ok false
  /\ hex_decode (to_upper (hmac_hex appSecret payload))
     = Some (Sha256.hmac_sha256 (utf8_encode appSecret) (payload_bytes payload))
  /\ hex_decode (hmac_hex appSecret payload)
     = Some (Sha256.hmac_sha256 (utf8_encode appSecret) (payload_bytes payload)).
Proof.
  intros Hletter.
  assert (Hdec : hex_decode (hmac_hex appSecret payload)
                 = Some (Sha256.hmac_sha256 (utf8_encode appSecret)
                           (payload_bytes payload)))
    by apply hex_decode_encode, hmac_sha256_range.
  split; [|split; [rewrite hex_decode_upper|]; exact Hdec].
  rewrite validateSignature_accepted. unfold accepted.
  rewrite sha256_prefix, <- app_assoc. cbn [app].
  rewrite split_two
    by (apply sha256_no_equals_sign
        || apply to_upper_no_equals_sign, hmac_hex_lower).
  f_equal. apply bool_decide_eq_false_2. intros Heq.
  apply to_upper_fixed in Heq. congruence.
Qed.

Lemma validateSignature_uppercase_digest_witness :
  existsb lower_letter (hmac_hex (js "secret") (PString (js "hello"))) = true /\
  validateSignature (PString (js "hello"))
    (Some (js "sha256=" ++ to_upper (hmac_hex (js "secret") (PString (js "hello")))))
    (js "secret")
  = Ok false.
Proof.
  assert (H : existsb lower_letter (hmac_hex (js "secret") (PString (js "hello"))) = true)
    by (vm_compute; reflexivity).
  split; [exact H|].
  exact (proj1 (validateSignature_uppercase_digest _ _ H)).
Defined.

(** ** Reading the envelope *)

Section Reads.

Lemma get_object (o : gmap jsstring value) (k : jsstring) (x : value) :
  o !! k = Some x -> get (VObject o) k = Ok x.
Proof. intros H. cbn [get]. rewrite H. reflexivity. Qed.

Lemma get_object_missing (o : gmap jsstring value) (k : jsstring) :
  o !! k = None -> get (VObject o) k = Ok VUndefined.
Proof. intros H. cbn [get]. rewrite H. reflexivity. Qed.

Lemma get_first (x : value) (l : list value) : get (VArray (x :: l)) zero = Ok x.
Proof. reflexivity. Qed.

Lemma get_path_cons (v : value) (k : jsstring) (ks : list jsstring) :
  get_path v (k :: ks) = (w ← get v k; get_path w ks).
Proof. reflexivity. Qed.

Lemma get_path_ok (v w : value) (k : jsstring) (ks : list jsstring) :
  get v k = Ok w -> get_path v (k :: ks) = get_path w ks.
Proof. intros H. rewrite get_path_cons, H. reflexivity. Qed.

Lemma getFirstMessage_first_event (payload : value) :
  getFirstMessage payload = first_event messages payload.
Proof. reflexivity. Qed.

Lemma getFirstStatus_first_event (payload : value) :
  getFirstStatus payload = first_event statuses payload.
Proof. reflexivity. Qed.

End Reads.

Section Envelope.
Variables (p e c v : gmap jsstring value) (es cs : list value).
Hypothesis Hentry : p !! entry = Some (VArray (VObject e :: es)).
Hypothesis Hchanges : e !! changes = Some (VArray (VObject c :: cs)).
Hypothesis Hvalue : c !! js "value" = Some (VObject v).

Lemma path_changes :
  get_path (VObject p) [entry; zero; changes] = Ok (VArray (VObject c :: cs)).
Proof.
  rewrite (get_path_ok _ _ _ _ (get_object _ _ _ Hentry)).
  rewrite (get_path_ok _ _ _ _ (get_first _ _)).
  rewrite (get_path_ok _ _ _ _ (get_object _ _ _ Hchanges)).
  reflexivity.
Qed.

Lemma path_value (ks : list jsstring) :
  get_path (VObject p) (entry :: zero :: changes :: zero :: js "value" :: ks)
  = get_path (VObject v) ks.
Proof.
  rewrite (get_path_ok _ _ _ _ (get_object _ _ _ Hentry)).
  rewrite (get_path_ok _ _ _ _ (get_first _ _)).
  rewrite (get_path_ok _ _ _ _ (get_object _ _ _ Hchanges)).
  rewrite (get_path_ok _ _ _ _ (get_first _ _)).
  rewrite (get_path_ok _ _ _ _ (get_object _ _ _ Hvalue)).
  reflexivity.
Qed.

(** The first event is returned when it is truthy, as every record is. *)
Lemma first_event_present (field : jsstring) (x : value) (xs : list value) :
  v !! field = Some (VArray (x :: xs)) -> truthy x = true ->
  first_event field (VObject p) = Ok x.
Proof.
  intros Hfield Hx. unfold first_event.
  rewrite path_changes, !path_value.
  rewrite (get_path_ok _ _ _ _ (get_object _ _ _ Hentry)).
  rewrite (get_path_ok _ _ _ _ (get_object _ _ _ Hfield)).
  rewrite (get_path_ok _ _ _ _ (get_object _ _ _ Hfield)).
  rewrite (get_path_ok _ _ _ _ (get_first _ _)).
  cbn [get_path js_and mbind result_bind truthy].
  repeat (rewrite Hx; cbn [mbind result_bind]). reflexivity.
Qed.

(** Without the property there is no event. *)
Lemma first_event_absent (field : jsstring) :
  v !! field = None -> first_event field (VObject p) = Ok VNull.
Proof.
  intros Hfield. unfold first_event.
  rewrite path_changes, !path_value.
  rewrite (get_path_ok _ _ _ _ (get_object _ _ _ Hentry)).
  rewrite !(get_path_ok _ _ _ _ (get_object_missing _ _ Hfield)).
  reflexivity.
Qed.

End Envelope.

(** ** Claims on the extraction of the first event *)

(** C8: for every envelope whose first entry's first change's value holds
    a non-empty sequence of message records, [getFirstMessage] returns the
    first record of that sequence as it is; the messages, changes and
    entries after the first ([ms], [cs], [es]) have no part in the result. *)
Theorem getFirstMessage_first_message (p e c v m : gmap jsstring value)
    (es cs ms : list value) :
  p !! entry = Some (VArray (VObject e :: es)) ->
  e !! changes = Some (VArray (VObject c :: cs)) ->
  c !! js "value" = Some (VObject v) ->
  v !! messages = Some (VArray (VObject m :: ms)) ->
  getFirstMessage (VObject p) = Ok (VObject m).
Proof.
  intros Hentry Hchanges Hvalue Hmessages.
  rewrite getFirstMessage_first_event.
  exact (first_event_present _ _ _ _ _ _ Hentry Hchanges Hvalue _ _ _
           Hmessages eq_refl).
Qed.

Lemma getFirstMessage_first_message_witness :
  getFirstMessage
    (obj [prop "object" (VString (js "whatsapp_business_account"));
          prop "entry" (VArray
             [obj [prop "id" (VString (js "1"));
                   prop "changes" (VArray
                      [obj [prop "field" (VString (js "messages"));
                            prop "value" (obj [prop "messages" (VArray
                                     [obj [prop "id" (VString (js "m1"));
                                           prop "type" (VString (js "text"));
                                           prop "text" (obj [prop "body" (VString (js "hi"))])];
                                      obj [prop "id" (VString (js "m2"))]])])];
                       obj [prop "field" (VString (js "other"))]])];
              obj [prop "id" (VString (js "2"))]])])
  = Ok (obj [prop "id" (VString (js "m1"));
             prop "type" (VString (js "text"));
             prop "text" (obj [prop "body" (VString (js "hi"))])]).
Proof.
  eapply getFirstMessage_first_message; vm_compute; reflexivity.
Defined.

(** C9: on an envelope whose first entry's first change's value holds a
    messages sequence and no statuses sequence, [getFirstStatus] returns
    [null]; on one whose value holds a non-empty sequence of status
    records, it returns the first status record. *)
Theorem getFirstStatus_statuses_only (p e c v : gmap jsstring value)
    (es cs : list value) :
  p !! entry = Some (VArray (VObject e :: es)) ->
  e !! changes = Some (VArray (VObject c :: cs)) ->
  c !! js "value" = Some (VObject v) ->
  (forall ms, v !! messages = Some (VArray ms) -> v !! statuses = None ->
     getFirstStatus (VObject p) = Ok VNull)
  /\ (forall (st : gmap jsstring value) sts,
        v !! statuses = Some (VArray (VObject st :: sts)) ->
        getFirstStatus (VObject p) = Ok (VObject st)).
Proof.
  intros Hentry Hchanges Hvalue. split.
  - intros ms _ Hnone. rewrite getFirstStatus_first_event.
    exact (first_event_absent _ _ _ _ _ _ Hentry Hchanges Hvalue _ Hnone).
  - intros st sts Hstatuses. rewrite getFirstStatus_first_event.
    exact (first_event_present _ _ _ _ _ _ Hentry Hchanges Hvalue _ _ _
             Hstatuses eq_refl).
Qed.

Lemma getFirstStatus_statuses_only_witness :
  getFirstStatus
    (obj [prop "entry" (VArray
            [obj [prop "changes" (VArray
                    [obj [prop "value" (obj
                            [prop "messages" (VArray
                               [obj [prop "id" (VString (js "m1"))]])])]])]])])
  = Ok VNull
  /\ getFirstStatus
       (obj [prop "entry" (VArray
               [obj [prop "changes" (VArray
                       [obj [prop "value" (obj
                               [prop "statuses" (VArray
                                  [obj [prop "id" (VString (js "s1"));
                                        prop "status" (VString (js "read"))]])])]])]])])
     = Ok (obj [prop "id" (VString (js "s1"));
                prop "status" (VString (js "read"))]).
Proof.
  split.
  - eapply (fun p e c v es cs H1 H2 H3 =>
              proj1 (getFirstStatus_statuses_only p e c v es cs H1 H2 H3));
      vm_compute; reflexivity.
  - eapply (fun p e c v es cs H1 H2 H3 =>
              proj2 (getFirstStatus_statuses_only p e c v es cs H1 H2 H3));
      vm_compute; reflexivity.
Defined.

(** C1: the extraction is not total.  On an envelope with an empty [entry]
    sequence, and on one whose first entry has an empty [changes] sequence,
    [getFirstMessage] and [getFirstStatus] throw a TypeError: the guard
    tests [payload.entry] and [payload.entry[0].changes], which an empty
    array passes, and not [payload.entry[0]] or [...changes[0]].  A value
    without [messages] is handled: the result is [null]. *)
Theorem getFirstMessage_throws_on_empty_sequences :
  getFirstMessage (obj [prop "entry" (VArray [])]) = Throw TypeError
  /\ getFirstMessage
       (obj [prop "entry" (VArray [obj [prop "changes" (VArray [])]])])
     = Throw TypeError
  /\ getFirstStatus (obj [prop "entry" (VArray [])]) = Throw TypeError
  /\ getFirstStatus
       (obj [prop "entry" (VArray [obj [prop "changes" (VArray [])]])])
     = Throw TypeError
  /\ getFirstMessage
       (obj [prop "entry" (VArray
               [obj [prop "changes" (VArray [obj [prop "value" (obj [])]])]])])
     = Ok VNull.
Proof. vm_compute. repeat split; reflexivity. Qed.

(** ** Claims on the handshake *)

Lemma verifyWebhook_object (query : gmap jsstring value) (verifyToken : jsstring) :
  verifyWebhook (VObject query) verifyToken
  = let mode := default VUndefined (query !! js "hub.mode") in
    let token := default VUndefined (query !! js "hub.verify_token") in
    if truthy mode && truthy token then
      if strict_eq_string mode (js "subscribe") && strict_eq_string token verifyToken
      then Ok (default VUndefined (query !! js "hub.challenge"))
      else Ok VNull
    else Ok VNull.
Proof.
  unfold verifyWebhook. cbn [get mbind result_bind js_and]. cbv zeta.
  destruct (truthy (default VUndefined (query !! js "hub.mode"))) eqn:Hmode;
    cbn [andb mbind result_bind]; [reflexivity|].
  rewrite Hmode. reflexivity.
Qed.

Lemma strict_eq_string_true (v : value) (s : jsstring) :
  strict_eq_string v s = true <-> v = VString s.
Proof.
  destruct v; cbn [strict_eq_string]; try (split; discriminate).
  rewrite bool_decide_eq_true. split; congruence.
Qed.

Lemma truthy_string (s : jsstring) : truthy (VString s) = true <-> s <> [].
Proof.
  cbn [truthy]. rewrite negb_true_iff, bool_decide_eq_false. reflexivity.
Qed.

(** C4, as the code has it: [verifyWebhook] returns the challenge as it
    reads it (the value under [hub.challenge], [undefined] when there is
    none) when [hub.mode] is the string ["subscribe"] and
    [hub.verify_token] is a string equal to the expected token and not
    empty; in every other case it returns [null].  The guard
    [if (mode && token)] turns an empty token down before any comparison,
    also when the expected token is empty. *)
Theorem verifyWebhook_challenge (query : gmap jsstring value)
    (verifyToken : jsstring) :
  (query !! js "hub.mode" = Some (VString (js "subscribe")) ->
   query !! js "hub.verify_token" = Some (VString verifyToken) ->
   verifyToken <> [] ->
   verifyWebhook (VObject query) verifyToken
   = Ok (default VUndefined (query !! js "hub.challenge")))
  /\ (~ (query !! js "hub.mode" = Some (VString (js "subscribe"))
         /\ query !! js "hub.verify_token" = Some (VString verifyToken)
         /\ verifyToken <> []) ->
      verifyWebhook (VObject query) verifyToken = Ok VNull).
Proof.
  rewrite verifyWebhook_object. cbv zeta. split.
  - intros Hmode Htoken Hne. rewrite Hmode, Htoken.
    change (default VUndefined (Some ?x)) with x.
    rewrite (proj2 (truthy_string _) Hne).
    rewrite !(proj2 (strict_eq_string_true _ _) eq_refl). reflexivity.
  - intros Hnot.
    destruct (truthy (default VUndefined (query !! js "hub.mode"))
              && truthy (default VUndefined (query !! js "hub.verify_token")))
      eqn:Hguard; [|reflexivity].
    destruct (strict_eq_string (default VUndefined (query !! js "hub.mode"))
                (js "subscribe")
              && strict_eq_string
                   (default VUndefined (query !! js "hub.verify_token"))
                   verifyToken) eqn:Heq; [|reflexivity].
    exfalso. apply Hnot.
    apply andb_true_iff in Hguard as [_ Htruthy].
    apply andb_true_iff in Heq as [Hmode Htoken].
    apply strict_eq_string_true in Hmode, Htoken.
    rewrite Htoken in Htruthy. apply truthy_string in Htruthy.
    destruct (query !! js "hub.mode") as [mode|]; [|discriminate Hmode].
    destruct (query !! js "hub.verify_token") as [token|]; [|discriminate Htoken].
    cbn in Hmode, Htoken. subst mode token. auto.
Qed.

Lemma verifyWebhook_challenge_witness :
  verifyWebhook
    (obj [prop "hub.mode" (VString (js "subscribe"));
          prop "hub.verify_token" (VString (js "T"));
          prop "hub.challenge" (VString (js "C123"))])
    (js "T")
  = Ok (VString (js "C123"))
  /\ verifyWebhook
       (obj [prop "hub.mode" (VString (js "subscribe"));
             prop "hub.verify_token" (VString (js "WRONG"));
             prop "hub.challenge" (VString (js "C123"))])
       (js "T")
     = Ok VNull.
Proof.
  split.
  - refine (eq_trans (proj1 (verifyWebhook_challenge _ _) _ _ _) _);
      [vm_compute; reflexivity | vm_compute; reflexivity | discriminate
      | vm_compute; reflexivity].
  - refine (proj2 (verifyWebhook_challenge _ _) _).
    intros [_ [H _]]. vm_compute in H. discriminate H.
Defined.

(** The claim as stated fails when both tokens are empty: mode is
    ["subscribe"], the supplied token equals the expected one, and yet the
    result is [null], not the challenge ["C123"]. *)
Lemma verifyWebhook_empty_token :
  get (obj [prop "hub.mode" (VString (js "subscribe"));
            prop "hub.verify_token" (VString (js ""));
            prop "hub.challenge" (VString (js "C123"))]) (js "hub.mode")
  = Ok (VString (js "subscribe"))
  /\ get (obj [prop "hub.mode" (VString (js "subscribe"));
               prop "hub.verify_token" (VString (js ""));
               prop "hub.challenge" (VString (js "C123"))]) (js "hub.verify_token")
     = Ok (VString (js ""))
  /\ get (obj [prop "hub.mode" (VString (js "subscribe"));
               prop "hub.verify_token" (VString (js ""));
               prop "hub.challenge" (VString (js "C123"))]) (js "hub.challenge")
     = Ok (VString (js "C123"))
  /\ verifyWebhook
       (obj [prop "hub.mode" (VString (js "subscribe"));
             prop "hub.verify_token" (VString (js ""));
             prop "hub.challenge" (VString (js "C123"))])
       (js "")
     = Ok VNull
  /\ (@Ok value VNull <> Ok (VString (js "C123"))).
Proof. vm_compute. repeat split; try reflexivity. discriminate. Qed.

(** ** A header computed over another payload *)

Lemma hex_encode_inj (a b : list N) :
  Forall (fun x => x < 256) a -> Forall (fun x => x < 256) b ->
  hex_encode a = hex_encode b -> a = b.
Proof.
  intros Ha Hb Heq. apply hex_decode_encode in Ha, Hb.
  rewrite Heq in Ha. congruence.
Qed.

(** The header computed over [payload] passes for [payload'] exactly when
    the two payloads have the same digest under the secret. *)
Lemma validateSignature_digest_of_other (payload payload' : raw_payload)
    (appSecret : jsstring) :
  validateSignature payload'
    (Some (js "sha256=" ++ hmac_hex appSecret payload)) appSecret
  = Ok (bool_decide (hmac_hex appSecret payload = hmac_hex appSecret payload')).
Proof.
  rewrite validateSignature_accepted. unfold accepted.
  rewrite sha256_prefix, <- app_assoc. cbn [app].
  rewrite split_two
    by (apply sha256_no_equals_sign || apply hmac_hex_no_equals_sign).
  reflexivity.
Qed.

(** In terms of the bytes the HMAC produces: the header computed over
    [payload] passes for [payload'] exactly when both payloads have the same
    HMAC-SHA256 under the secret.  Whether two given payloads do is a
    question about SHA-256, which the handler leaves open. *)
Lemma validateSignature_same_hmac (payload payload' : raw_payload)
    (appSecret : jsstring) :
  validateSignature payload'
    (Some (js "sha256=" ++ hmac_hex appSecret payload)) appSecret
  = Ok true
  <-> Sha256.hmac_sha256 (utf8_encode appSecret) (payload_bytes payload')
      = Sha256.hmac_sha256 (utf8_encode appSecret) (payload_bytes payload).
Proof.
  rewrite validateSignature_digest_of_other. split.
  - intros [= Heq]. apply bool_decide_eq_true in Heq. symmetry.
    exact (hex_encode_inj _ _ (hmac_sha256_range _ _) (hmac_sha256_range _ _) Heq).
  - intros H. rewrite bool_decide_eq_true_2; [reflexivity|].
    unfold hmac_hex. rewrite H. reflexivity.
Qed.

(** * Further properties of the handler, its callers and the client *)

Import Client Guide Coverage.

(** ** [split] and [join] *)

Section SplitJoin.
Variable sep : N.

Lemma split_pieces (s : jsstring) : Forall (fun piece => sep ∉ piece) (split sep s).
Proof.
  induction s as [|c s IH]; [repeat constructor; apply not_elem_of_nil|].
  rewrite split_cons. destruct (N.eqb_spec c sep) as [E|E].
  - constructor; [apply not_elem_of_nil|exact IH].
  - destruct (split sep s) as [|piece pieces].
    + constructor; [|constructor].
      apply not_elem_of_cons. split; [congruence|apply not_elem_of_nil].
    + apply Forall_cons in IH as [Hpiece Hpieces]. constructor; [|exact Hpieces].
      apply not_elem_of_cons. split; [congruence|exact Hpiece].
Qed.

Lemma split_not_nil (s : jsstring) : split sep s <> [].
Proof.
  destruct s as [|c s]; [discriminate|].
  rewrite split_cons. destruct (c =? sep); [discriminate|].
  destruct (split sep s); discriminate.
Qed.

Lemma join_cons_cons (x y : jsstring) (rest : list jsstring) :
  join sep (x :: y :: rest) = x ++ sep :: join sep (y :: rest).
Proof. reflexivity. Qed.

Lemma join_push (c : N) (piece : jsstring) (pieces : list jsstring) :
  join sep ((c :: piece) :: pieces) = c :: join sep (piece :: pieces).
Proof. destruct pieces; reflexivity. Qed.

(** Joining the pieces of a string gives the string back. *)
Lemma join_split (s : jsstring) : join sep (split sep s) = s.
Proof.
  induction s as [|c s IH]; [reflexivity|].
  rewrite split_cons. destruct (N.eqb_spec c sep) as [->|E].
  - pose proof (split_not_nil s) as Hne.
    destruct (split sep s) as [|piece pieces]; [contradiction|].
    rewrite join_cons_cons, IH. reflexivity.
  - pose proof (split_not_nil s) as Hne.
    destruct (split sep s) as [|piece pieces]; [contradiction|].
    rewrite join_push, IH. reflexivity.
Qed.

(** Splitting a joined list gives the list back, when there is a list to
    give back and no element holds the separator. *)
Lemma split_join (parts : list jsstring) :
  parts <> [] -> Forall (fun piece => sep ∉ piece) parts ->
  split sep (join sep parts) = parts.
Proof.
  induction parts as [|x rest IH]; [contradiction|].
  intros _ Hall. apply Forall_cons in Hall as [Hx Hrest].
  destruct rest as [|y rest].
  - apply split_without, Hx.
  - rewrite join_cons_cons, (split_at_first _ _ _ Hx), IH;
      [reflexivity|discriminate|exact Hrest].
Qed.

Lemma join_snoc (parts : list jsstring) (x : jsstring) :
  parts <> [] -> join sep (parts ++ [x]) = join sep parts ++ sep :: x.
Proof.
  induction parts as [|y rest IH]; [contradiction|]. intros _.
  destruct rest as [|z rest]; [reflexivity|].
  change ((y :: z :: rest) ++ [x]) with (y :: z :: (rest ++ [x])).
  rewrite !join_cons_cons.
  change (z :: rest ++ [x]) with ((z :: rest) ++ [x]).
  rewrite IH by discriminate. rewrite <- app_assoc. reflexivity.
Qed.

Lemma split_two_inv (s x d : jsstring) :
  split sep s = [x; d] -> s = x ++ sep :: d /\ (sep ∉ x) /\ (sep ∉ d).
Proof.
  intros H. pose proof (split_pieces s) as Hall. pose proof (join_split s) as Hjoin.
  rewrite H in Hall, Hjoin.
  apply Forall_cons in Hall as [Hx Hd]. apply Forall_cons in Hd as [Hd _].
  rewrite <- Hjoin. auto.
Qed.

End SplitJoin.

(** ** Further properties of [validateSignature] *)

(** X1: Whatever the payload, the header (absent or any string) and the
    secret, [validateSignature] completes with a boolean: the length test
    keeps [timingSafeEqual] from its RangeError, and [parts[1]] is a string
    whenever [Buffer.from] is reached. *)
Theorem validateSignature_never_throws (payload : raw_payload)
    (signature : option jsstring) (appSecret : jsstring) :
  validateSignature payload signature appSecret = Ok true
  \/ validateSignature payload signature appSecret = Ok false.
Proof.
  rewrite validateSignature_accepted.
  destruct (accepted (hmac_hex appSecret payload) signature); auto.
Qed.

Lemma accepted_true_iff (digest : jsstring) (signature : option jsstring) :
  61 ∉ digest ->
  accepted digest signature = true
  <-> exists x : jsstring, (61 ∉ x) /\ signature = Some (x ++ js "=" ++ digest).
Proof.
  intros Hdigest. unfold accepted. change (js "=" ++ ?d) with (61 :: d). split.
  - destruct signature as [header|]; [|discriminate].
    destruct (split 61 header) as [|x [|d [|y parts]]] eqn:Hsplit;
      try discriminate.
    intros Hd. apply bool_decide_eq_true in Hd. subst d.
    apply split_two_inv in Hsplit as (-> & Hx & _). eauto.
  - intros (x & Hx & ->). rewrite (split_two _ _ _ Hx Hdigest).
    apply bool_decide_eq_true_2. reflexivity.
Qed.

(** X2: The accepted headers are exactly the strings [X ++ "=" ++ D] with [D]
    the computed digest and [X] free of [=]: a header with a second [=],
    or with anything after the digest, is rejected. *)
Theorem validateSignature_true_iff (payload : raw_payload)
    (signature : option jsstring) (appSecret : jsstring) :
  validateSignature payload signature appSecret = Ok true
  <-> exists x : jsstring,
        (61 ∉ x) /\ signature = Some (x ++ js "=" ++ hmac_hex appSecret payload).
Proof.
  rewrite validateSignature_accepted.
  rewrite <- (accepted_true_iff _ _ (hmac_hex_no_equals_sign appSecret payload)).
  split; [intros [= H]; exact H | intros ->; reflexivity].
Qed.

(** ** Further properties of [verifyWebhook] *)

(** X3: [verifyWebhook] throws exactly when [query] is [undefined] or [null]
    (the read of [hub.mode] fails); on a boolean, a number, a string or an
    array it finds no field and returns [null]. *)
Theorem verifyWebhook_throws_iff_nullish (query : value) (verifyToken : jsstring) :
  (verifyWebhook query verifyToken = Throw TypeError
   <-> query = VUndefined \/ query = VNull)
  /\ (forall e, verifyWebhook query verifyToken = Throw e -> e = TypeError)
  /\ ((forall o, query <> VObject o) -> query <> VUndefined -> query <> VNull ->
      verifyWebhook query verifyToken = Ok VNull).
Proof.
  destruct query as [| |b|x|s|l|o].
  - repeat split; auto; try congruence. intros e [= <-]. reflexivity.
  - repeat split; auto; try congruence. intros e [= <-]. reflexivity.
  - repeat split; try discriminate; try reflexivity. intros [|]; discriminate.
  - repeat split; try discriminate; try reflexivity. intros [|]; discriminate.
  - repeat split; try discriminate; try reflexivity. intros [|]; discriminate.
  - repeat split; try discriminate; try reflexivity. intros [|]; discriminate.
  - rewrite verifyWebhook_object. cbv zeta.
    assert (Hok : exists v, (if truthy (default VUndefined (o !! js "hub.mode"))
                                && truthy (default VUndefined (o !! js "hub.verify_token"))
                             then
                               if strict_eq_string (default VUndefined (o !! js "hub.mode"))
                                    (js "subscribe")
                                  && strict_eq_string
                                       (default VUndefined (o !! js "hub.verify_token"))
                                       verifyToken
                               then Ok (default VUndefined (o !! js "hub.challenge"))
                               else Ok VNull
                             else Ok VNull) = Ok v).
    { destruct (_ && _); [destruct (_ && _)|]; eauto. }
    destruct Hok as [v ->]. split; [split|split].
    + discriminate.
    + intros [|]; discriminate.
    + discriminate.
    + intros Hobj. exfalso. exact (Hobj o eq_refl).
Qed.

(** X4: [verifyWebhook] reads [hub.mode], [hub.verify_token] and
    [hub.challenge] and nothing else: two query objects that agree on these
    three fields get the same answer. *)
Theorem verifyWebhook_three_fields (query query' : gmap jsstring value)
    (verifyToken : jsstring) :
  (forall k, k ∈ hub_fields -> query !! k = query' !! k) ->
  verifyWebhook (VObject query) verifyToken
  = verifyWebhook (VObject query') verifyToken.
Proof.
  intros Hsame. rewrite !verifyWebhook_object.
  rewrite (Hsame (js "hub.mode")), (Hsame (js "hub.verify_token")),
    (Hsame (js "hub.challenge")); [reflexivity|..];
    unfold hub_fields; set_solver.
Qed.

Lemma verifyWebhook_three_fields_witness :
  verifyWebhook
    (obj [prop "hub.mode" (VString (js "subscribe"));
          prop "hub.verify_token" (VString (js "T"));
          prop "hub.challenge" (VString (js "C123"))])
    (js "T")
  = verifyWebhook
      (obj [prop "hub.mode" (VString (js "subscribe"));
            prop "hub.verify_token" (VString (js "T"));
            prop "hub.challenge" (VString (js "C123"));
            prop "hub.other" (VArray [VNull]);
            prop "debug" (VBool true)])
      (js "T").
Proof.
  apply verifyWebhook_three_fields.
  intros k Hk. unfold hub_fields in Hk.
  apply elem_of_cons in Hk as [->|Hk]; [vm_compute; reflexivity|].
  apply elem_of_cons in Hk as [->|Hk]; [vm_compute; reflexivity|].
  apply elem_of_cons in Hk as [->|Hk]; [vm_compute; reflexivity|].
  apply elem_of_nil in Hk. destruct Hk.
Defined.

(** ** Further properties of the extraction *)

Lemma js_and_truthy (a b : result value) (x : value) :
  js_and a b = Ok x -> truthy x = true -> b = Ok x.
Proof.
  unfold js_and. destruct a as [y|e]; cbn [mbind result_bind]; [|discriminate].
  destruct (truthy y) eqn:Hy; [auto|].
  intros [= ->] Hx. congruence.
Qed.

Lemma first_event_null_or_truthy (field : jsstring) (payload x : value) :
  first_event field payload = Ok x -> x = VNull \/ truthy x = true.
Proof.
  unfold first_event.
  destruct (js_and _ _) as [cond|e] eqn:Hcond; cbn [mbind result_bind];
    [|discriminate].
  destruct (truthy cond) eqn:Htruthy.
  - rewrite (js_and_truthy _ _ _ Hcond Htruthy). intros [= <-]. auto.
  - intros [= <-]. auto.
Qed.

(** X5: Whatever the payload, a result of [getFirstMessage] or
    [getFirstStatus] is [null] or truthy, never [undefined], [false], [0]
    or the empty string: the caller's test [if (message)] fails on [null]
    only. *)
Theorem getFirst_null_or_truthy (payload x : value) :
  (getFirstMessage payload = Ok x -> x = VNull \/ truthy x = true)
  /\ (getFirstStatus payload = Ok x -> x = VNull \/ truthy x = true).
Proof.
  rewrite getFirstMessage_first_event, getFirstStatus_first_event.
  split; apply first_event_null_or_truthy.
Qed.

Lemma getFirst_null_or_truthy_witness :
  getFirstMessage
    (obj [prop "entry" (VArray
            [obj [prop "changes" (VArray
                    [obj [prop "value" (obj
                            [prop "messages" (VArray [VString (js "")])])]])]])])
  = Ok VNull
  /\ (@VNull = VNull \/ truthy VNull = true).
Proof.
  assert (H : getFirstMessage
                (obj [prop "entry" (VArray
                        [obj [prop "changes" (VArray
                                [obj [prop "value" (obj
                                        [prop "messages" (VArray [VString (js "")])])]])]])])
              = Ok VNull) by (vm_compute; reflexivity).
  split; [exact H|].
  exact (proj1 (getFirst_null_or_truthy _ _) H).
Defined.

Section Shape.
Variables (p e c v : gmap jsstring value) (es cs : list value).
Hypothesis Hentry : p !! entry = Some (VArray (VObject e :: es)).
Hypothesis Hchanges : e !! changes = Some (VArray (VObject c :: cs)).
Hypothesis Hvalue : c !! js "value" = Some (VObject v).

Lemma first_event_picked (field : jsstring) :
  first_event field (VObject p) = picked (v !! field).
Proof.
  unfold first_event.
  rewrite (path_changes _ _ _ _ _ Hentry Hchanges).
  rewrite !(path_value _ _ _ _ _ _ Hentry Hchanges Hvalue).
  rewrite (get_path_ok _ _ _ _ (get_object _ _ _ Hentry)).
  unfold picked. destruct (v !! field) as [m|] eqn:Hfield.
  - rewrite !(get_path_ok _ _ _ _ (get_object _ _ _ Hfield)).
    cbn [get_path js_and mbind result_bind truthy].
    destruct (truthy m) eqn:Hm; cbn [mbind result_bind].
    + destruct (get m zero) as [x|err]; cbn [mbind result_bind]; [|reflexivity].
      destruct (truthy x); reflexivity.
    + rewrite Hm. reflexivity.
  - rewrite !(get_path_ok _ _ _ _ (get_object_missing _ _ Hfield)). reflexivity.
Qed.

End Shape.

(** X6: On envelopes with a first entry, a first change and its value,
    [getFirstMessage] depends on the [messages] of that value only, and
    [getFirstStatus] on its [statuses] only: further entries and changes,
    and every other field, have no part in the result. *)
Theorem getFirst_reads_one_field (p e c v p' e' c' v' : gmap jsstring value)
    (es cs es' cs' : list value) :
  p !! entry = Some (VArray (VObject e :: es)) ->
  e !! changes = Some (VArray (VObject c :: cs)) ->
  c !! js "value" = Some (VObject v) ->
  p' !! entry = Some (VArray (VObject e' :: es')) ->
  e' !! changes = Some (VArray (VObject c' :: cs')) ->
  c' !! js "value" = Some (VObject v') ->
  (v !! messages = v' !! messages ->
   getFirstMessage (VObject p) = getFirstMessage (VObject p'))
  /\ (v !! statuses = v' !! statuses ->
      getFirstStatus (VObject p) = getFirstStatus (VObject p')).
Proof.
  intros H1 H2 H3 H1' H2' H3'.
  rewrite (getFirstMessage_first_event (VObject p)),
    (getFirstMessage_first_event (VObject p')),
    (getFirstStatus_first_event (VObject p)),
    (getFirstStatus_first_event (VObject p')).
  rewrite !(first_event_picked _ _ _ _ _ _ H1 H2 H3).
  rewrite !(first_event_picked _ _ _ _ _ _ H1' H2' H3').
  split; intros ->; reflexivity.
Qed.

Lemma getFirst_reads_one_field_witness :
  getFirstMessage
    (obj [prop "entry" (VArray
            [obj [prop "changes" (VArray
                    [obj [prop "value" (obj
                            [prop "messages" (VArray
                               [obj [prop "id" (VString (js "m1"))]])])]])]])])
  = getFirstMessage
      (obj [prop "object" (VString (js "whatsapp_business_account"));
            prop "entry" (VArray
              [obj [prop "id" (VString (js "7"));
                    prop "changes" (VArray
                      [obj [prop "field" (VString (js "messages"));
                            prop "value" (obj
                              [prop "statuses" (VArray
                                 [obj [prop "id" (VString (js "s1"))]]);
                               prop "messages" (VArray
                                 [obj [prop "id" (VString (js "m1"))]])])];
                       VNull])];
               VNumber 0])]).
Proof.
  eapply (fun p e c v p' e' c' v' es cs es' cs' H1 H2 H3 H4 H5 H6 =>
            proj1 (getFirst_reads_one_field p e c v p' e' c' v' es cs es' cs'
                     H1 H2 H3 H4 H5 H6));
    vm_compute; reflexivity.
Defined.

Lemma js_and_falsy (a b : result value) (x : value) :
  a = Ok x -> truthy x = false -> js_and a b = Ok x.
Proof. intros -> Hx. unfold js_and. cbn [mbind result_bind]. rewrite Hx. reflexivity. Qed.

Lemma js_and_pass (a b : result value) (x : value) :
  a = Ok x -> truthy x = true -> js_and a b = b.
Proof. intros -> Hx. unfold js_and. cbn [mbind result_bind]. rewrite Hx. reflexivity. Qed.

Lemma first_event_no_entry (field : jsstring) (p : gmap jsstring value) :
  truthy (default VUndefined (p !! entry)) = false ->
  first_event field (VObject p) = Ok VNull.
Proof.
  intros Hfalsy. unfold first_event.
  assert (Hget : get_path (VObject p) [entry] = Ok (default VUndefined (p !! entry)))
    by reflexivity.
  rewrite (js_and_falsy _ _ _
             (js_and_falsy _ _ _ (js_and_falsy _ _ _ Hget Hfalsy) Hfalsy) Hfalsy).
  cbn [mbind result_bind]. rewrite Hfalsy. reflexivity.
Qed.

Lemma first_event_no_changes (field : jsstring) (p e : gmap jsstring value)
    (es : list value) :
  p !! entry = Some (VArray (VObject e :: es)) ->
  truthy (default VUndefined (e !! changes)) = false ->
  first_event field (VObject p) = Ok VNull.
Proof.
  intros Hentry Hfalsy. unfold first_event.
  assert (Hget : get_path (VObject p) [entry; zero; changes]
                 = Ok (default VUndefined (e !! changes))).
  { rewrite (get_path_ok _ _ _ _ (get_object _ _ _ Hentry)).
    rewrite (get_path_ok _ _ _ _ (get_first _ _)). reflexivity. }
  assert (Hfirst : get_path (VObject p) [entry] = Ok (VArray (VObject e :: es)))
    by (rewrite (get_path_ok _ _ _ _ (get_object _ _ _ Hentry)); reflexivity).
  rewrite (js_and_pass _ _ _ Hfirst eq_refl).
  rewrite (js_and_falsy _ _ _ (js_and_falsy _ _ _ Hget Hfalsy) Hfalsy).
  cbn [mbind result_bind]. rewrite Hfalsy. reflexivity.
Qed.

(** X7: Absence at the guarded levels gives [null]: no (or a falsy) [entry];
    a first entry with no (or falsy) [changes]; a value without the events
    property, or with an empty events sequence. *)
Theorem getFirst_absent_or_empty (p e c v : gmap jsstring value)
    (es cs : list value) :
  (truthy (default VUndefined (p !! entry)) = false ->
   getFirstMessage (VObject p) = Ok VNull /\ getFirstStatus (VObject p) = Ok VNull)
  /\ (p !! entry = Some (VArray (VObject e :: es)) ->
      truthy (default VUndefined (e !! changes)) = false ->
      getFirstMessage (VObject p) = Ok VNull
      /\ getFirstStatus (VObject p) = Ok VNull)
  /\ (p !! entry = Some (VArray (VObject e :: es)) ->
      e !! changes = Some (VArray (VObject c :: cs)) ->
      c !! js "value" = Some (VObject v) ->
      (v !! messages = None \/ v !! messages = Some (VArray []) ->
       getFirstMessage (VObject p) = Ok VNull)
      /\ (v !! statuses = None \/ v !! statuses = Some (VArray []) ->
          getFirstStatus (VObject p) = Ok VNull)).
Proof.
  rewrite getFirstMessage_first_event, getFirstStatus_first_event.
  split; [|split].
  - intros H. split; apply first_event_no_entry, H.
  - intros H1 H2. split; exact (first_event_no_changes _ _ _ _ H1 H2).
  - intros H1 H2 H3. rewrite !(first_event_picked _ _ _ _ _ _ H1 H2 H3).
    split; intros [-> | ->]; reflexivity.
Qed.

Lemma getFirst_absent_or_empty_witness :
  getFirstMessage (obj [prop "object" (VString (js "whatsapp_business_account"))])
  = Ok VNull
  /\ getFirstStatus (obj [prop "entry" (VArray [obj [prop "id" (VString (js "1"))]])])
     = Ok VNull
  /\ getFirstMessage
       (obj [prop "entry" (VArray
               [obj [prop "changes" (VArray
                       [obj [prop "value" (obj
                               [prop "messages" (VArray [])])]])]])])
     = Ok VNull.
Proof.
  split; [|split].
  - refine (proj1 (proj1 (getFirst_absent_or_empty _ ∅ ∅ ∅ [] []) _)).
    vm_compute. reflexivity.
  - eapply (fun p e es H1 H2 =>
              proj2 (proj1 (proj2 (getFirst_absent_or_empty p e ∅ ∅ es [])) H1 H2));
      vm_compute; reflexivity.
  - eapply (fun p e c v es cs H1 H2 H3 H4 =>
              proj1 (proj2 (proj2 (getFirst_absent_or_empty p e c v es cs)) H1 H2 H3)
                (or_intror H4));
      vm_compute; reflexivity.
Defined.

Lemma first_event_throws_entry (field : jsstring) (p : gmap jsstring value) :
  p !! entry = Some (VArray []) ->
  first_event field (VObject p) = Throw TypeError.
Proof.
  intros Hentry. unfold first_event.
  rewrite !(get_path_ok _ _ _ _ (get_object _ _ _ Hentry)). reflexivity.
Qed.

Lemma first_event_throws_changes (field : jsstring) (p e : gmap jsstring value)
    (es : list value) :
  p !! entry = Some (VArray (VObject e :: es)) ->
  e !! changes = Some (VArray []) ->
  first_event field (VObject p) = Throw TypeError.
Proof.
  intros Hentry Hchanges. unfold first_event.
  rewrite !(get_path_ok _ _ _ _ (get_object _ _ _ Hentry)).
  rewrite !(get_path_ok _ _ _ _ (get_first _ _)).
  rewrite !(get_path_ok _ _ _ _ (get_object _ _ _ Hchanges)). reflexivity.
Qed.

Lemma first_event_throws_value (field : jsstring) (p e c : gmap jsstring value)
    (es cs : list value) :
  p !! entry = Some (VArray (VObject e :: es)) ->
  e !! changes = Some (VArray (VObject c :: cs)) ->
  c !! js "value" = None ->
  first_event field (VObject p) = Throw TypeError.
Proof.
  intros Hentry Hchanges Hvalue. unfold first_event.
  rewrite !(get_path_ok _ _ _ _ (get_object _ _ _ Hentry)).
  rewrite !(get_path_ok _ _ _ _ (get_first _ _)).
  rewrite !(get_path_ok _ _ _ _ (get_object _ _ _ Hchanges)).
  rewrite !(get_path_ok _ _ _ _ (get_first _ _)).
  rewrite !(get_path_ok _ _ _ _ (get_object_missing _ _ Hvalue)). reflexivity.
Qed.

(** X8: Where the guard does not reach: every envelope with an empty [entry]
    sequence, with a first entry whose [changes] sequence is empty, or with
    a first change that has no [value], makes [getFirstMessage] and
    [getFirstStatus] throw a TypeError. *)
Theorem getFirst_throws (p e c : gmap jsstring value) (es cs : list value) :
  (p !! entry = Some (VArray []) ->
   getFirstMessage (VObject p) = Throw TypeError
   /\ getFirstStatus (VObject p) = Throw TypeError)
  /\ (p !! entry = Some (VArray (VObject e :: es)) ->
      e !! changes = Some (VArray []) ->
      getFirstMessage (VObject p) = Throw TypeError
      /\ getFirstStatus (VObject p) = Throw TypeError)
  /\ (p !! entry = Some (VArray (VObject e :: es)) ->
      e !! changes = Some (VArray (VObject c :: cs)) ->
      c !! js "value" = None ->
      getFirstMessage (VObject p) = Throw TypeError
      /\ getFirstStatus (VObject p) = Throw TypeError).
Proof.
  rewrite getFirstMessage_first_event, getFirstStatus_first_event.
  split; [|split].
  - intros H. split; apply first_event_throws_entry, H.
  - intros H1 H2. split; exact (first_event_throws_changes _ _ _ _ H1 H2).
  - intros H1 H2 H3. split; exact (first_event_throws_value _ _ _ _ _ _ H1 H2 H3).
Qed.

Lemma getFirst_throws_witness :
  getFirstStatus
    (obj [prop "object" (VString (js "whatsapp_business_account"));
          prop "entry" (VArray [])])
  = Throw TypeError
  /\ getFirstMessage
       (obj [prop "entry" (VArray
               [obj [prop "changes" (VArray
                       [obj [prop "field" (VString (js "messages"))]])]])])
     = Throw TypeError.
Proof.
  split.
  - refine (proj2 (proj1 (getFirst_throws _ ∅ ∅ [] []) _)).
    vm_compute. reflexivity.
  - eapply (fun p e c es cs H1 H2 H3 =>
              proj1 (proj2 (proj2 (getFirst_throws p e c es cs)) H1 H2 H3));
      vm_compute; reflexivity.
Defined.

(** X9: No type is checked on the way: a non-empty sequence whose first
    element is falsy gives [null], not that element, and a [messages] (or
    [statuses]) that is a non-empty string gives its first character. *)
Theorem getFirst_untyped (p e c v : gmap jsstring value) (es cs : list value) :
  p !! entry = Some (VArray (VObject e :: es)) ->
  e !! changes = Some (VArray (VObject c :: cs)) ->
  c !! js "value" = Some (VObject v) ->
  (forall x xs, truthy x = false ->
     (v !! messages = Some (VArray (x :: xs)) ->
      getFirstMessage (VObject p) = Ok VNull)
     /\ (v !! statuses = Some (VArray (x :: xs)) ->
         getFirstStatus (VObject p) = Ok VNull))
  /\ (forall ch s,
        (v !! messages = Some (VString (ch :: s)) ->
         getFirstMessage (VObject p) = Ok (VString [ch]))
        /\ (v !! statuses = Some (VString (ch :: s)) ->
            getFirstStatus (VObject p) = Ok (VString [ch]))).
Proof.
  intros H1 H2 H3.
  rewrite getFirstMessage_first_event, getFirstStatus_first_event.
  rewrite !(first_event_picked _ _ _ _ _ _ H1 H2 H3).
  split.
  - intros x xs Hx. split; intros ->; unfold picked;
      cbn [truthy get mbind result_bind];
      change (array_index zero) with (Some 0%nat);
      cbn [lookup list_lookup default from_option id]; rewrite Hx; reflexivity.
  - intros ch s. split; intros ->; reflexivity.
Qed.

Lemma getFirst_untyped_witness :
  getFirstMessage
    (obj [prop "entry" (VArray
            [obj [prop "changes" (VArray
                    [obj [prop "value" (obj
                            [prop "messages" (VArray
                               [VNumber 0; obj [prop "id" (VString (js "m2"))]])])]])]])])
  = Ok VNull
  /\ getFirstStatus
       (obj [prop "entry" (VArray
               [obj [prop "changes" (VArray
                       [obj [prop "value" (obj
                               [prop "statuses" (VString (js "read"))])]])]])])
     = Ok (VString (js "r")).
Proof.
  split.
  - eapply (fun p e c v es cs xs H1 H2 H3 Hx =>
              proj1 (proj1 (getFirst_untyped p e c v es cs H1 H2 H3)
                       (VNumber 0) xs Hx));
      vm_compute; reflexivity.
  - eapply (fun p e c v es cs ch s H1 H2 H3 =>
              proj2 (proj2 (getFirst_untyped p e c v es cs H1 H2 H3) ch s));
      vm_compute; reflexivity.
Defined.

(** ** The routes of the guide *)

Lemma verifyWebhook_granted (query : gmap jsstring value) (verifyToken : jsstring) :
  query !! js "hub.mode" = Some (VString (js "subscribe")) ->
  query !! js "hub.verify_token" = Some (VString verifyToken) ->
  verifyToken <> [] ->
  verifyWebhook (VObject query) verifyToken
  = Ok (default VUndefined (query !! js "hub.challenge")).
Proof.
  intros Hmode Htoken Hne. rewrite verifyWebhook_object. cbv zeta.
  rewrite Hmode, Htoken. change (default VUndefined (Some ?x)) with x.
  rewrite (proj2 (truthy_string _) Hne).
  rewrite !(proj2 (strict_eq_string_true _ _) eq_refl). reflexivity.
Qed.

Lemma verifyWebhook_refused (query : gmap jsstring value) (verifyToken : jsstring) :
  ~ (query !! js "hub.mode" = Some (VString (js "subscribe"))
     /\ query !! js "hub.verify_token" = Some (VString verifyToken)
     /\ verifyToken <> []) ->
  verifyWebhook (VObject query) verifyToken = Ok VNull.
Proof.
  intros Hnot. rewrite verifyWebhook_object. cbv zeta.
  destruct (truthy (default VUndefined (query !! js "hub.mode"))
            && truthy (default VUndefined (query !! js "hub.verify_token")))
    eqn:Hguard; [|reflexivity].
  destruct (strict_eq_string (default VUndefined (query !! js "hub.mode"))
              (js "subscribe")
            && strict_eq_string
                 (default VUndefined (query !! js "hub.verify_token"))
                 verifyToken) eqn:Heq; [|reflexivity].
  exfalso. apply Hnot.
  apply andb_true_iff in Hguard as [_ Htruthy].
  apply andb_true_iff in Heq as [Hmode Htoken].
  apply strict_eq_string_true in Hmode, Htoken.
  rewrite Htoken in Htruthy. apply truthy_string in Htruthy.
  destruct (query !! js "hub.mode") as [mode|]; [|discriminate Hmode].
  destruct (query !! js "hub.verify_token") as [token|]; [|discriminate Htoken].
  cbn in Hmode, Htoken. subst mode token. auto.
Qed.

(** X10: The verify endpoint answers with the challenge when the handshake
    holds (mode ["subscribe"], the expected non-empty token) and the
    challenge is truthy; a handshake that holds with an empty or missing
    challenge is answered 400, as is every handshake that does not hold:
    the endpoint never sends a falsy body. *)
Theorem verify_endpoint_answer (query : gmap jsstring value)
    (verifyToken : jsstring) :
  (query !! js "hub.mode" = Some (VString (js "subscribe")) ->
   query !! js "hub.verify_token" = Some (VString verifyToken) ->
   verifyToken <> [] ->
   verify_endpoint (VObject query) verifyToken
   = Ok (if truthy (default VUndefined (query !! js "hub.challenge"))
         then [Send (default VUndefined (query !! js "hub.challenge"))]
         else [SendStatus 400]))
  /\ (~ (query !! js "hub.mode" = Some (VString (js "subscribe"))
         /\ query !! js "hub.verify_token" = Some (VString verifyToken)
         /\ verifyToken <> []) ->
      verify_endpoint (VObject query) verifyToken = Ok [SendStatus 400])
  /\ (forall body, verify_endpoint (VObject query) verifyToken = Ok [Send body] ->
        truthy body = true).
Proof.
  unfold verify_endpoint. split; [|split].
  - intros Hmode Htoken Hne.
    rewrite (verifyWebhook_granted _ _ Hmode Htoken Hne). cbn [mbind result_bind].
    destruct (truthy _); reflexivity.
  - intros Hnot. rewrite (verifyWebhook_refused _ _ Hnot). reflexivity.
  - intros body. destruct (verifyWebhook _ _) as [challenge|e];
      cbn [mbind result_bind]; [|discriminate].
    destruct (truthy challenge) eqn:Hc; [|discriminate].
    intros [= <-]. exact Hc.
Qed.

Lemma verify_endpoint_answer_witness :
  verify_endpoint
    (obj [prop "hub.mode" (VString (js "subscribe"));
          prop "hub.verify_token" (VString (js "T"));
          prop "hub.challenge" (VString (js "C123"))])
    (js "T")
  = Ok [Send (VString (js "C123"))]
  /\ verify_endpoint
       (obj [prop "hub.mode" (VString (js "subscribe"));
             prop "hub.verify_token" (VString (js "T"));
             prop "hub.challenge" (VString (js ""))])
       (js "T")
     = Ok [SendStatus 400]
  /\ verify_endpoint
       (obj [prop "hub.mode" (VString (js "unsubscribe"));
             prop "hub.verify_token" (VString (js "T"));
             prop "hub.challenge" (VString (js "C123"))])
       (js "T")
     = Ok [SendStatus 400].
Proof.
  split; [|split].
  - refine (eq_trans (proj1 (verify_endpoint_answer _ _) _ _ _) _);
      [vm_compute; reflexivity | vm_compute; reflexivity | discriminate
      | vm_compute; reflexivity].
  - refine (eq_trans (proj1 (verify_endpoint_answer _ _) _ _ _) _);
      [vm_compute; reflexivity | vm_compute; reflexivity | discriminate
      | vm_compute; reflexivity].
  - refine (proj1 (proj2 (verify_endpoint_answer _ _)) _).
    intros [H _]. vm_compute in H. discriminate H.
Defined.




(** ** The client *)

(** X14: [uploadMediaForTemplate] names the upload after the part of the path
    behind its last [/]: the [file_name] parameter is always a string (never
    [undefined]), holds no [/], and the path is a directory part, empty or
    ending in [/], followed by it.  A path that ends in [/] gets the empty
    name. *)
Theorem file_name_is_base_name (filePath : jsstring) :
  exists dir name : jsstring,
    file_name filePath = Some name
    /\ filePath = dir ++ name
    /\ (47 ∉ name)
    /\ (dir = [] \/ exists d, dir = d ++ [47]).
Proof.
  unfold file_name.
  pose proof (split_pieces 47 filePath) as Hall.
  pose proof (join_split 47 filePath) as Hjoin.
  pose proof (split_not_nil 47 filePath) as Hne.
  destruct (split 47 filePath) as [|piece pieces] using rev_ind; [contradiction|].
  clear IHpieces. rewrite last_snoc.
  apply Forall_app in Hall as [_ Hname]. apply Forall_cons in Hname as [Hname _].
  destruct pieces as [|first rest].
  - exists [], piece. cbn in Hjoin. auto.
  - exists (join 47 (first :: rest) ++ [47]), piece.
    rewrite join_snoc in Hjoin by discriminate.
    rewrite <- app_assoc. cbn [app]. split; [reflexivity|].
    split; [symmetry; exact Hjoin|]. split; [exact Hname|]. right. eauto.
Qed.

(** X15: [uploadMediaForTemplate] posts the upload session to the node
    [senderPhoneNumberId.split('_')[0]]: always a string, the part of the
    identifier before its first [_], and the whole identifier when it
    holds no [_]. *)
Theorem upload_node_is_prefix (senderPhoneNumberId : jsstring) :
  exists node : jsstring,
    upload_node senderPhoneNumberId = Some node
    /\ (95 ∉ node)
    /\ (senderPhoneNumberId = node
        \/ exists rest, senderPhoneNumberId = node ++ 95 :: rest)
    /\ (95 ∉ senderPhoneNumberId -> node = senderPhoneNumberId).
Proof.
  unfold upload_node.
  pose proof (split_pieces 95 senderPhoneNumberId) as Hall.
  pose proof (join_split 95 senderPhoneNumberId) as Hjoin.
  pose proof (split_not_nil 95 senderPhoneNumberId) as Hne.
  destruct (split 95 senderPhoneNumberId) as [|node rest] eqn:Hsplit;
    [contradiction|].
  exists node. apply Forall_cons in Hall as [Hnode _].
  split; [reflexivity|]. split; [exact Hnode|]. split.
  - destruct rest as [|y rest]; [left; symmetry; exact Hjoin|].
    right. exists (join 95 (y :: rest)). symmetry. exact Hjoin.
  - intros Hno. rewrite (split_without _ _ Hno) in Hsplit.
    injection Hsplit as <- _. reflexivity.
Qed.

(** X16: [getAnalytics] sends a list of metric types (or phone numbers) as one
    comma-separated string, never as [undefined]; two non-empty lists
    without commas in their elements that are sent alike are the same list,
    and splitting on commas gives the list back.  The empty list is sent
    as the empty string, as the list of one empty string is. *)
Theorem joined_param_faithful (parts parts' : list jsstring) :
  joined_param (Some parts) <> VUndefined
  /\ (parts <> [] -> Forall (fun piece => 44 ∉ piece) parts ->
      joined_param (Some parts) = VString (join 44 parts)
      /\ split 44 (join 44 parts) = parts)
  /\ (parts <> [] -> parts' <> [] ->
      Forall (fun piece => 44 ∉ piece) parts ->
      Forall (fun piece => 44 ∉ piece) parts' ->
      joined_param (Some parts) = joined_param (Some parts') -> parts = parts')
  /\ joined_param (Some []) = joined_param (Some [[]]).
Proof.
  split; [discriminate|]. split; [|split; [|reflexivity]].
  - intros Hne Hall. split; [reflexivity|]. apply split_join; assumption.
  - intros Hne Hne' Hall Hall' [= Heq].
    rewrite <- (split_join 44 parts Hne Hall), <- (split_join 44 parts' Hne' Hall').
    rewrite Heq. reflexivity.
Qed.

Lemma joined_param_faithful_witness :
  joined_param (Some [js "COST"; js "CONVERSATION"]) = VString (js "COST,CONVERSATION")
  /\ split 44 (js "COST,CONVERSATION") = [js "COST"; js "CONVERSATION"].
Proof.
  assert (Hne : [js "COST"; js "CONVERSATION"] <> []) by discriminate.
  assert (Hall : Forall (fun piece => 44 ∉ piece) [js "COST"; js "CONVERSATION"])
    by (repeat constructor; compute_done).
  exact (proj1 (proj2 (joined_param_faithful [js "COST"; js "CONVERSATION"] []))
           Hne Hall).
Defined.


